(** * EZ-USB firmware: the USB control-transfer engine around [usb.h]

    The first part embeds [firmware/include/usb.h]: the fixed-width
    integer types, the descriptor and SETUP-packet structs with their
    byte images, the bmRequestType and bRequest constants, the
    [STR_DESCR] initialiser and the [STALL_EP0] and [CLEAR_IRQ] register
    macros.  The descriptor tables, the control request dispatcher and
    the handoff of the signal flags live in files of the firmware other
    than the header; they are modelled from the specification of the
    firmware, and every such definition says so.

    The target is an 8051 core compiled with SDCC (the header uses
    [__xdata] and [__at]): every object has alignment 1, so a struct is
    the concatenation of its members, and multi-byte integers are stored
    least significant byte first. *)

From Stdlib Require Import ZArith List Lia Bool String.
From stdpp Require Import base numbers list strings functions gmap.
Local Open Scope Z_scope.

(** ** Fixed-width integers of <stdint.h> *)

Inductive ctype := uint8_t | uint16_t.

Definition sizeof (t : ctype) : nat :=
  match t with uint8_t => 1 | uint16_t => 2 end.

(** Storing a value into an object of type [t] keeps its low bits. *)
Definition wrap (t : ctype) (v : Z) : Z :=
  match t with uint8_t => v mod 256 | uint16_t => v mod 65536 end.

(** The bytes of a stored value, lowest address first. *)
Definition to_bytes (t : ctype) (v : Z) : list Z :=
  match t with
  | uint8_t => [v mod 256]
  | uint16_t => [v mod 256; (v / 256) mod 256]
  end.

(** Reading a 16-bit little-endian value back. *)
Definition le16 (lo hi : Z) : Z := lo + 256 * hi.

(** ** Struct declarations and their byte images *)

Definition struct_decl := list (string * ctype).

Definition struct_size (d : struct_decl) : nat :=
  foldr (λ f n, (sizeof f.2 + n)%nat) 0%nat d.

Fixpoint offsetof (d : struct_decl) (name : string) : option nat :=
  match d with
  | [] => None
  | (n, t) :: d' =>
      if String.eqb n name then Some 0%nat
      else (λ o, (sizeof t + o)%nat) <$> offsetof d' name
  end.

Definition field_type (d : struct_decl) (name : string) : option ctype :=
  snd <$> find (λ f, String.eqb f.1 name) d.

Fixpoint serialise (d : struct_decl) (vals : list Z) : list Z :=
  match d, vals with
  | (_, t) :: d', v :: vs => to_bytes t v ++ serialise d' vs
  | _, _ => []
  end.

(** A flexible array member [uint16_t a[]] with the given elements. *)
Definition serialise_units (units : list Z) : list Z :=
  concat (map (to_bytes uint16_t) units).

(** ** USB descriptors (usb.h, section 9.5 of the USB 1.1 spec) *)

Definition USB_DESCRIPTOR_TYPE_DEVICE : Z := 0x01.
Definition USB_DESCRIPTOR_TYPE_CONFIGURATION : Z := 0x02.
Definition USB_DESCRIPTOR_TYPE_STRING : Z := 0x03.
Definition USB_DESCRIPTOR_TYPE_INTERFACE : Z := 0x04.
Definition USB_DESCRIPTOR_TYPE_ENDPOINT : Z := 0x05.

Definition USB_LANG_ENGLISH_US : Z := Z.lor 0x009 (Z.shiftl 0x01 10).
Definition USB_LANG_ENGLISH_UK : Z := Z.lor 0x009 (Z.shiftl 0x02 10).
Definition USB_LANG_GERMAN : Z := Z.lor 0x007 (Z.shiftl 0x01 10).
Definition USB_LANG_GERMAN_CH : Z := Z.lor 0x007 (Z.shiftl 0x02 10).
Definition USB_LANG_GERMAN_AT : Z := Z.lor 0x007 (Z.shiftl 0x03 10).
Definition USB_LANG_GERMAN_LU : Z := Z.lor 0x007 (Z.shiftl 0x04 10).
Definition USB_LANG_GERMAN_LI : Z := Z.lor 0x007 (Z.shiftl 0x05 10).

Module usb_device_descriptor.
Record t := mk {
  bLength : Z;
  bDescriptorType : Z;
  bcdUSB : Z;
  bDeviceClass : Z;
  bDeviceSubClass : Z;
  bDeviceProtocol : Z;
  bMaxPacketSize0 : Z;
  idVendor : Z;
  idProduct : Z;
  bcdDevice : Z;
  iManufacturer : Z;
  iProduct : Z;
  iSerialNumber : Z;
  bNumConfigurations : Z
}.

Definition decl : struct_decl :=
  [("bLength", uint8_t); ("bDescriptorType", uint8_t); ("bcdUSB", uint16_t);
   ("bDeviceClass", uint8_t); ("bDeviceSubClass", uint8_t);
   ("bDeviceProtocol", uint8_t); ("bMaxPacketSize0", uint8_t);
   ("idVendor", uint16_t); ("idProduct", uint16_t); ("bcdDevice", uint16_t);
   ("iManufacturer", uint8_t); ("iProduct", uint8_t);
   ("iSerialNumber", uint8_t); ("bNumConfigurations", uint8_t)]%string.

Definition fields (d : t) : list Z :=
  [bLength d; bDescriptorType d; bcdUSB d; bDeviceClass d; bDeviceSubClass d;
   bDeviceProtocol d; bMaxPacketSize0 d; idVendor d; idProduct d; bcdDevice d;
   iManufacturer d; iProduct d; iSerialNumber d; bNumConfigurations d].

Definition bytes (d : t) : list Z := serialise decl (fields d).
End usb_device_descriptor.

Module usb_config_descriptor.
Record t := mk {
  bLength : Z;
  bDescriptorType : Z;
  wTotalLength : Z;
  bNumInterfaces : Z;
  bConfigurationValue : Z;
  iConfiguration : Z;
  bmAttributes : Z;
  MaxPower : Z
}.

Definition decl : struct_decl :=
  [("bLength", uint8_t); ("bDescriptorType", uint8_t);
   ("wTotalLength", uint16_t); ("bNumInterfaces", uint8_t);
   ("bConfigurationValue", uint8_t); ("iConfiguration", uint8_t);
   ("bmAttributes", uint8_t); ("MaxPower", uint8_t)]%string.

Definition fields (c : t) : list Z :=
  [bLength c; bDescriptorType c; wTotalLength c; bNumInterfaces c;
   bConfigurationValue c; iConfiguration c; bmAttributes c; MaxPower c].

Definition bytes (c : t) : list Z := serialise decl (fields c).
End usb_config_descriptor.

Module usb_interface_descriptor.
Record t := mk {
  bLength : Z;
  bDescriptorType : Z;
  bInterfaceNumber : Z;
  bAlternateSetting : Z;
  bNumEndpoints : Z;
  bInterfaceClass : Z;
  bInterfaceSubclass : Z;
  bInterfaceProtocol : Z;
  iInterface : Z
}.

Definition decl : struct_decl :=
  [("bLength", uint8_t); ("bDescriptorType", uint8_t);
   ("bInterfaceNumber", uint8_t); ("bAlternateSetting", uint8_t);
   ("bNumEndpoints", uint8_t); ("bInterfaceClass", uint8_t);
   ("bInterfaceSubclass", uint8_t); ("bInterfaceProtocol", uint8_t);
   ("iInterface", uint8_t)]%string.

Definition fields (i : t) : list Z :=
  [bLength i; bDescriptorType i; bInterfaceNumber i; bAlternateSetting i;
   bNumEndpoints i; bInterfaceClass i; bInterfaceSubclass i;
   bInterfaceProtocol i; iInterface i].

Definition bytes (i : t) : list Z := serialise decl (fields i).
End usb_interface_descriptor.

Module usb_endpoint_descriptor.
Record t := mk {
  bLength : Z;
  bDescriptorType : Z;
  bEndpointAddress : Z;
  bmAttributes : Z;
  wMaxPacketSize : Z;
  bInterval : Z
}.

Definition decl : struct_decl :=
  [("bLength", uint8_t); ("bDescriptorType", uint8_t);
   ("bEndpointAddress", uint8_t); ("bmAttributes", uint8_t);
   ("wMaxPacketSize", uint16_t); ("bInterval", uint8_t)]%string.

Definition fields (e : t) : list Z :=
  [bLength e; bDescriptorType e; bEndpointAddress e; bmAttributes e;
   wMaxPacketSize e; bInterval e].

Definition bytes (e : t) : list Z := serialise decl (fields e).
End usb_endpoint_descriptor.

Module usb_language_descriptor.
Record t := mk {
  bLength : Z;
  bDescriptorType : Z;
  wLANGID : list Z
}.

Definition decl : struct_decl :=
  [("bLength", uint8_t); ("bDescriptorType", uint8_t)]%string.

Definition bytes (l : t) : list Z :=
  serialise decl [bLength l; bDescriptorType l] ++ serialise_units (wLANGID l).
End usb_language_descriptor.

Module usb_string_descriptor.
Record t := mk {
  bLength : Z;
  bDescriptorType : Z;
  bString : list Z
}.

Definition decl : struct_decl :=
  [("bLength", uint8_t); ("bDescriptorType", uint8_t)]%string.

Definition bytes (s : t) : list Z :=
  serialise decl [bLength s; bDescriptorType s] ++ serialise_units (bString s).
End usb_string_descriptor.

(** ** The arguments of the macros

    A macro replaces its parameter by the tokens of the argument, so
    what an argument means depends on where the tokens land.  The
    fragment of C expressions below has decimal constants, parentheses,
    [*] and [+], with the grammar levels of C; arguments written with
    other operators are not covered.  Arithmetic is that of the
    target's 16-bit [int]: a constant above [INT_MAX] (it would have
    another type) and a result outside the range of [int] (undefined
    in C) have no value here. *)

Inductive primary_expression :=
  | constant (n : Z)
  | parenthesised (e : additive_expression)
with multiplicative_expression :=
  | multiplicative_primary (p : primary_expression)
  | multiply (m : multiplicative_expression) (p : primary_expression)
with additive_expression :=
  | additive_multiplicative (m : multiplicative_expression)
  | plus (a : additive_expression) (m : multiplicative_expression).

Definition INT_MIN : Z := -32768.
Definition INT_MAX : Z := 32767.

Definition int_value (z : Z) : option Z :=
  if (INT_MIN <=? z) && (z <=? INT_MAX) then Some z else None.

Fixpoint eval_primary (p : primary_expression) : option Z :=
  match p with
  | constant n => if 0 <=? n then int_value n else None
  | parenthesised e => eval_additive e
  end
with eval_multiplicative (m : multiplicative_expression) : option Z :=
  match m with
  | multiplicative_primary p => eval_primary p
  | multiply m' p =>
      match eval_multiplicative m', eval_primary p with
      | Some a, Some b => int_value (a * b)
      | _, _ => None
      end
  end
with eval_additive (a : additive_expression) : option Z :=
  match a with
  | additive_multiplicative m => eval_multiplicative m
  | plus a' m =>
      match eval_additive a', eval_multiplicative m with
      | Some x, Some y => int_value (x + y)
      | _, _ => None
      end
  end.

(** An argument that is a single constant, and one in parentheses. *)
Definition literal (n : Z) : additive_expression :=
  additive_multiplicative (multiplicative_primary (constant n)).


(** [len*2+2] with the tokens of the argument for [len]: the [*2] joins
    the last multiplicative expression of the argument. *)
Definition STR_DESCR_bLength (len : additive_expression) : additive_expression :=
  plus
    match len with
    | additive_multiplicative m => additive_multiplicative (multiply m (constant 2))
    | plus a m => plus a (multiply m (constant 2))
    end
    (multiplicative_primary (constant 2)).

(** [#define STR_DESCR(len,...) { len*2+2, USB_DESCRIPTOR_TYPE_STRING, { __VA_ARGS__ } }]
    The first initialiser lands in the [uint8_t] member [bLength]; there
    is no descriptor when it has no value. *)
Definition STR_DESCR (len : additive_expression) (units : list Z)
    : option usb_string_descriptor.t :=
  match eval_additive (STR_DESCR_bLength len) with
  | Some v =>
      Some (usb_string_descriptor.mk (wrap uint8_t v) USB_DESCRIPTOR_TYPE_STRING units)
  | None => None
  end.

(** ** USB control endpoint 0: the SETUP packet *)

Module setup_data.
Record t := mk {
  bmRequestType : Z;
  bRequest : Z;
  wValue : Z;
  wIndex : Z;
  wLength : Z
}.

Definition decl : struct_decl :=
  [("bmRequestType", uint8_t); ("bRequest", uint8_t); ("wValue", uint16_t);
   ("wIndex", uint16_t); ("wLength", uint16_t)]%string.

Definition fields (s : t) : list Z :=
  [bmRequestType s; bRequest s; wValue s; wIndex s; wLength s].

Definition bytes (s : t) : list Z := serialise decl (fields s).
End setup_data.

(** ** bmRequestType (USB 1.1 spec, table 9-2)

    Bit 7: data transfer direction; bits 6...5: type; bits 4...0:
    recipient. *)

Definition USB_DIR_OUT : Z := 0x00.
Definition USB_DIR_IN : Z := 0x80.

Definition USB_REQ_TYPE_STANDARD : Z := Z.shiftl 0x00 5.
Definition USB_REQ_TYPE_CLASS : Z := Z.shiftl 0x01 5.
Definition USB_REQ_TYPE_VENDOR : Z := Z.shiftl 0x02 5.
Definition USB_REQ_TYPE_RESERVED : Z := Z.shiftl 0x03 5.

Definition USB_RECIP_DEVICE : Z := 0x00.
Definition USB_RECIP_INTERFACE : Z := 0x01.
Definition USB_RECIP_ENDPOINT : Z := 0x02.
Definition USB_RECIP_OTHER : Z := 0x03.

(** [(dir | type | recip)] as the header writes every composite. *)
Definition request_type_of (dir type recip : Z) : Z :=
  Z.lor (Z.lor dir type) recip.

Definition USB_RECIP_CF_DEVICE : Z :=
  request_type_of USB_DIR_OUT USB_REQ_TYPE_STANDARD USB_RECIP_DEVICE.
Definition USB_RECIP_CF_INTERFACE : Z :=
  request_type_of USB_DIR_OUT USB_REQ_TYPE_STANDARD USB_RECIP_INTERFACE.
Definition USB_RECIP_CF_ENDPOINT : Z :=
  request_type_of USB_DIR_OUT USB_REQ_TYPE_STANDARD USB_RECIP_ENDPOINT.
Definition USB_RECIP_GC_DEVICE : Z :=
  request_type_of USB_DIR_IN USB_REQ_TYPE_STANDARD USB_RECIP_DEVICE.
Definition USB_RECIP_GD_DEVICE : Z :=
  request_type_of USB_DIR_IN USB_REQ_TYPE_STANDARD USB_RECIP_DEVICE.
Definition USB_RECIP_GI_INTERFACE : Z :=
  request_type_of USB_DIR_IN USB_REQ_TYPE_STANDARD USB_RECIP_INTERFACE.
Definition USB_RECIP_GS_DEVICE : Z :=
  request_type_of USB_DIR_IN USB_REQ_TYPE_STANDARD USB_RECIP_DEVICE.
Definition USB_RECIP_GS_INTERFACE : Z :=
  request_type_of USB_DIR_IN USB_REQ_TYPE_STANDARD USB_RECIP_INTERFACE.
Definition USB_RECIP_GS_ENDPOINT : Z :=
  request_type_of USB_DIR_IN USB_REQ_TYPE_STANDARD USB_RECIP_ENDPOINT.
Definition USB_RECIP_SC_DEVICE : Z :=
  request_type_of USB_DIR_OUT USB_REQ_TYPE_STANDARD USB_RECIP_DEVICE.
Definition USB_RECIP_SD_DEVICE : Z :=
  request_type_of USB_DIR_OUT USB_REQ_TYPE_STANDARD USB_RECIP_DEVICE.
Definition USB_RECIP_SF_DEVICE : Z :=
  request_type_of USB_DIR_OUT USB_REQ_TYPE_STANDARD USB_RECIP_DEVICE.
Definition USB_RECIP_SF_INTERFACE : Z :=
  request_type_of USB_DIR_OUT USB_REQ_TYPE_STANDARD USB_RECIP_INTERFACE.
Definition USB_RECIP_SF_ENDPOINT : Z :=
  request_type_of USB_DIR_OUT USB_REQ_TYPE_STANDARD USB_RECIP_ENDPOINT.
Definition USB_RECIP_SI_INTERFACE : Z :=
  request_type_of USB_DIR_OUT USB_REQ_TYPE_STANDARD USB_RECIP_INTERFACE.
Definition USB_RECIP_SY_ENDPOINT : Z :=
  request_type_of USB_DIR_IN USB_REQ_TYPE_STANDARD USB_RECIP_ENDPOINT.

(** Every composite of the header with the direction and recipient it is
    built from. *)
Definition standard_request_types : list (Z * Z * Z) :=
  [(USB_RECIP_CF_DEVICE, USB_DIR_OUT, USB_RECIP_DEVICE);
   (USB_RECIP_CF_INTERFACE, USB_DIR_OUT, USB_RECIP_INTERFACE);
   (USB_RECIP_CF_ENDPOINT, USB_DIR_OUT, USB_RECIP_ENDPOINT);
   (USB_RECIP_GC_DEVICE, USB_DIR_IN, USB_RECIP_DEVICE);
   (USB_RECIP_GD_DEVICE, USB_DIR_IN, USB_RECIP_DEVICE);
   (USB_RECIP_GI_INTERFACE, USB_DIR_IN, USB_RECIP_INTERFACE);
   (USB_RECIP_GS_DEVICE, USB_DIR_IN, USB_RECIP_DEVICE);
   (USB_RECIP_GS_INTERFACE, USB_DIR_IN, USB_RECIP_INTERFACE);
   (USB_RECIP_GS_ENDPOINT, USB_DIR_IN, USB_RECIP_ENDPOINT);
   (USB_RECIP_SC_DEVICE, USB_DIR_OUT, USB_RECIP_DEVICE);
   (USB_RECIP_SD_DEVICE, USB_DIR_OUT, USB_RECIP_DEVICE);
   (USB_RECIP_SF_DEVICE, USB_DIR_OUT, USB_RECIP_DEVICE);
   (USB_RECIP_SF_INTERFACE, USB_DIR_OUT, USB_RECIP_INTERFACE);
   (USB_RECIP_SF_ENDPOINT, USB_DIR_OUT, USB_RECIP_ENDPOINT);
   (USB_RECIP_SI_INTERFACE, USB_DIR_OUT, USB_RECIP_INTERFACE);
   (USB_RECIP_SY_ENDPOINT, USB_DIR_IN, USB_RECIP_ENDPOINT)].

(** The three fields of a bmRequestType byte, read off the bit layout in
    the header's comment. *)
Definition request_direction (b : Z) : Z := Z.land b 0x80.
Definition request_type (b : Z) : Z := Z.land b (Z.shiftl 0x03 5).
Definition request_type_code (b : Z) : Z := Z.shiftr (request_type b) 5.
Definition request_recipient (b : Z) : Z := Z.land b 0x1f.

(** The layout as a check on one byte. *)
Definition bmRequestType_fields_ok (b : Z) : bool :=
  (b =? request_type_of (request_direction b) (request_type b) (request_recipient b))
  && (request_direction b =? (if Z.testbit b 7 then USB_DIR_IN else USB_DIR_OUT))
  && (request_type b =? Z.shiftl (request_type_code b) 5)
  && (request_type_code b =? (b / 32) mod 4)
  && (request_recipient b =? b mod 32).

(** ** USB requests (bRequest, USB 1.1 spec, table 9-4) *)

Definition USB_REQ_GET_STATUS : Z := 0.
Definition USB_REQ_CLEAR_FEATURE : Z := 1.
Definition USB_REQ_SET_FEATURE : Z := 3.
Definition USB_REQ_SET_ADDRESS : Z := 5.
Definition USB_REQ_GET_DESCRIPTOR : Z := 6.
Definition USB_REQ_SET_DESCRIPTOR : Z := 7.
Definition USB_REQ_GET_CONFIGURATION : Z := 8.
Definition USB_REQ_SET_CONFIGURATION : Z := 9.
Definition USB_REQ_GET_INTERFACE : Z := 10.
Definition USB_REQ_SET_INTERFACE : Z := 11.
Definition USB_REQ_SYNCH_FRAME : Z := 12.

(** The request codes the header defines, in its order. *)
Definition usb_requests : list Z :=
  [USB_REQ_GET_STATUS; USB_REQ_CLEAR_FEATURE; USB_REQ_SET_FEATURE;
   USB_REQ_SET_ADDRESS; USB_REQ_GET_DESCRIPTOR; USB_REQ_SET_DESCRIPTOR;
   USB_REQ_GET_CONFIGURATION; USB_REQ_SET_CONFIGURATION;
   USB_REQ_GET_INTERFACE; USB_REQ_SET_INTERFACE; USB_REQ_SYNCH_FRAME].

(** Standard feature selectors (table 9-6). *)
Definition DEVICE_REMOTE_WAKEUP : Z := 1.
Definition ENDPOINT_HALT : Z := 0.

Definition USB_CONFIG_ATTRIB_SELF_POWERED : Z := 0x40.

(** ** EZ-USB registers touched by the convenience macros

    [reg_ezusb.h] is not part of the sources at hand: the bit masks
    [EP0STALL] and [USBINT] it defines are parameters here. *)

Record ezusb_regs := mk_regs {
  EP0CS : Z;
  EXIF : Z
}.

Section convenience_macros.
Variable EP0STALL : Z.
Variable USBINT : Z.

(** [#define STALL_EP0()   EP0CS |= EP0STALL] *)
Definition STALL_EP0 (r : ezusb_regs) : ezusb_regs :=
  mk_regs (wrap uint8_t (Z.lor (EP0CS r) EP0STALL)) (EXIF r).

(** [#define CLEAR_IRQ()   EXIF &= ~USBINT] *)
Definition CLEAR_IRQ (r : ezusb_regs) : ezusb_regs :=
  mk_regs (EP0CS r) (wrap uint8_t (Z.land (EXIF r) (Z.lnot USBINT))).
End convenience_macros.

(** ** Descriptor Store *)

(** An interface of the configuration with the endpoints it declares. *)
Record interface_entry := mk_interface {
  interface_descriptor : usb_interface_descriptor.t;
  endpoint_descriptors : list usb_endpoint_descriptor.t
}.

(** Modelled from the spec: the firmware's descriptor tables (the
    initialised objects of [usb.c], which is not part of the sources at
    hand).  One device descriptor, one configuration with its interfaces
    and endpoints, the language descriptor (string index 0) and the
    string descriptors (string index 1, 2, ...). *)
Record descriptor_store := mk_store {
  device_descriptor : usb_device_descriptor.t;
  config_descriptor : usb_config_descriptor.t;
  interfaces : list interface_entry;
  language_descriptor : usb_language_descriptor.t;
  string_descriptors : list usb_string_descriptor.t
}.

Definition interface_bytes (i : interface_entry) : list Z :=
  usb_interface_descriptor.bytes (interface_descriptor i)
  ++ concat (map usb_endpoint_descriptor.bytes (endpoint_descriptors i)).

Definition nested_bytes (st : descriptor_store) : list Z :=
  concat (map interface_bytes (interfaces st)).

(** The configuration descriptor as served: its own 9 bytes followed by
    the nested interface and endpoint descriptors, contiguously. *)
Definition configuration_bytes (st : descriptor_store) : list Z :=
  usb_config_descriptor.bytes (config_descriptor st) ++ nested_bytes st.

Definition language_supported (st : descriptor_store) (languageId : Z) : bool :=
  existsb (Z.eqb languageId)
    (usb_language_descriptor.wLANGID (language_descriptor st)).

(** Modelled from the spec: [getDescriptor(type, index, languageId)]
    returns the bytes of a descriptor or NOT_FOUND ([None]).  Device and
    configuration descriptors ignore index and language; string index 0
    is the language descriptor; a string index beyond the table or an
    unsupported language is NOT_FOUND; interfaces and endpoints are not
    separately retrievable. *)
Definition getDescriptor (st : descriptor_store) (type index languageId : Z)
    : option (list Z) :=
  if type =? USB_DESCRIPTOR_TYPE_DEVICE then
    Some (usb_device_descriptor.bytes (device_descriptor st))
  else if type =? USB_DESCRIPTOR_TYPE_CONFIGURATION then
    Some (configuration_bytes st)
  else if type =? USB_DESCRIPTOR_TYPE_STRING then
    if index =? 0 then
      Some (usb_language_descriptor.bytes (language_descriptor st))
    else if (0 <? index) && language_supported st languageId then
      usb_string_descriptor.bytes <$> string_descriptors st !! Z.to_nat (index - 1)
    else None
  else None.

(** What the build is given for the tables: the descriptors without
    their lengths, the LANGIDs and the code units of every string. *)
Record table_source := mk_tables {
  src_device : usb_device_descriptor.t;
  src_config : usb_config_descriptor.t;
  src_interfaces : list interface_entry;
  src_langids : list Z;
  src_strings : list (list Z)
}.

Definition sized_device (d : usb_device_descriptor.t) : usb_device_descriptor.t :=
  usb_device_descriptor.mk (Z.of_nat (struct_size usb_device_descriptor.decl))
    (usb_device_descriptor.bDescriptorType d) (usb_device_descriptor.bcdUSB d)
    (usb_device_descriptor.bDeviceClass d) (usb_device_descriptor.bDeviceSubClass d)
    (usb_device_descriptor.bDeviceProtocol d) (usb_device_descriptor.bMaxPacketSize0 d)
    (usb_device_descriptor.idVendor d) (usb_device_descriptor.idProduct d)
    (usb_device_descriptor.bcdDevice d) (usb_device_descriptor.iManufacturer d)
    (usb_device_descriptor.iProduct d) (usb_device_descriptor.iSerialNumber d)
    (usb_device_descriptor.bNumConfigurations d).

Definition sized_endpoint (e : usb_endpoint_descriptor.t) : usb_endpoint_descriptor.t :=
  usb_endpoint_descriptor.mk (Z.of_nat (struct_size usb_endpoint_descriptor.decl))
    (usb_endpoint_descriptor.bDescriptorType e)
    (usb_endpoint_descriptor.bEndpointAddress e)
    (usb_endpoint_descriptor.bmAttributes e)
    (usb_endpoint_descriptor.wMaxPacketSize e) (usb_endpoint_descriptor.bInterval e).

Definition sized_interface (i : interface_entry) : interface_entry :=
  mk_interface
    (usb_interface_descriptor.mk (Z.of_nat (struct_size usb_interface_descriptor.decl))
       (usb_interface_descriptor.bDescriptorType (interface_descriptor i))
       (usb_interface_descriptor.bInterfaceNumber (interface_descriptor i))
       (usb_interface_descriptor.bAlternateSetting (interface_descriptor i))
       (usb_interface_descriptor.bNumEndpoints (interface_descriptor i))
       (usb_interface_descriptor.bInterfaceClass (interface_descriptor i))
       (usb_interface_descriptor.bInterfaceSubclass (interface_descriptor i))
       (usb_interface_descriptor.bInterfaceProtocol (interface_descriptor i))
       (usb_interface_descriptor.iInterface (interface_descriptor i)))
    (sized_endpoint <$> endpoint_descriptors i).

(** The encoded size of an interface with its endpoints. *)
Definition interface_size (i : interface_entry) : Z :=
  Z.of_nat (struct_size usb_interface_descriptor.decl)
  + Z.of_nat (length (endpoint_descriptors i))
    * Z.of_nat (struct_size usb_endpoint_descriptor.decl).

Definition sized_config (c : usb_config_descriptor.t) (ifs : list interface_entry)
    : usb_config_descriptor.t :=
  usb_config_descriptor.mk (Z.of_nat (struct_size usb_config_descriptor.decl))
    (usb_config_descriptor.bDescriptorType c)
    (Z.of_nat (struct_size usb_config_descriptor.decl)
     + foldr Z.add 0 (interface_size <$> ifs))
    (usb_config_descriptor.bNumInterfaces c)
    (usb_config_descriptor.bConfigurationValue c)
    (usb_config_descriptor.iConfiguration c)
    (usb_config_descriptor.bmAttributes c) (usb_config_descriptor.MaxPower c).

(** The strings of the table, each built by STR_DESCR from the number
    of its code units; none when one of them has no descriptor. *)
Fixpoint build_strings (strings : list (list Z)) : option (list usb_string_descriptor.t) :=
  match strings with
  | [] => Some []
  | units :: rest =>
      match STR_DESCR (literal (Z.of_nat (length units))) units, build_strings rest with
      | Some s, Some ss => Some (s :: ss)
      | _, _ => None
      end
  end.

(** Modelled from the spec: the tables as the build defines them (the
    initialised objects are in [usb.c], which is not part of the sources
    at hand).  Every descriptor is given its own encoded size as
    bLength, the configuration the sum of its own length and the lengths
    of the interfaces and endpoints nested in it as wTotalLength; the
    strings are built by STR_DESCR. *)
Definition build_store (src : table_source) : option descriptor_store :=
  match build_strings (src_strings src) with
  | Some strings =>
      Some (mk_store
              (sized_device (src_device src))
              (sized_config (src_config src) (src_interfaces src))
              (sized_interface <$> src_interfaces src)
              (usb_language_descriptor.mk
                 (Z.of_nat (struct_size usb_language_descriptor.decl)
                  + 2 * Z.of_nat (length (src_langids src)))
                 USB_DESCRIPTOR_TYPE_STRING (src_langids src))
              strings)
  | None => None
  end.




(** ** Endpoint State Table and device configuration state *)

(** Modelled from the spec: the per-endpoint record. *)
Record EndpointState := mk_endpoint {
  address : Z;
  direction : Z;
  transfer_type : Z;
  halted : bool
}.

(** Modelled from the spec: the current configuration value and the
    current alternate setting of every interface. *)
Record DeviceConfigState := mk_config_state {
  currentConfigurationValue : Z;
  currentAlternateSetting : gmap Z Z
}.

(** Everything the dispatcher reads or mutates: the registers, the
    endpoint table keyed by endpoint address, the configuration state and
    the remote-wakeup feature. *)
Record device := mk_device {
  regs : ezusb_regs;
  endpoints : gmap Z EndpointState;
  config_state : DeviceConfigState;
  remote_wakeup : bool
}.

Definition set_halted (h : bool) (e : EndpointState) : EndpointState :=
  mk_endpoint (address e) (direction e) (transfer_type e) h.

Definition halt_endpoint (ep : Z) (h : bool) (d : device) : device :=
  mk_device (regs d) (alter (set_halted h) ep (endpoints d))
    (config_state d) (remote_wakeup d).

Definition reset_endpoints (d : device) : device :=
  mk_device (regs d) (set_halted false <$> endpoints d)
    (config_state d) (remote_wakeup d).

Definition set_remote_wakeup (w : bool) (d : device) : device :=
  mk_device (regs d) (endpoints d) (config_state d) w.

Definition set_configuration_value (v : Z) (d : device) : device :=
  mk_device (regs d) (endpoints d)
    (mk_config_state v (currentAlternateSetting (config_state d)))
    (remote_wakeup d).

Definition set_alternate_setting (i a : Z) (d : device) : device :=
  mk_device (regs d) (endpoints d)
    (mk_config_state (currentConfigurationValue (config_state d))
       (<[i := a]> (currentAlternateSetting (config_state d))))
    (remote_wakeup d).

(** ** Control Request Dispatcher *)

(** What a request handler hands back: a request to stall, or the
    updated device and the bytes it offers for the data stage. *)
Inductive outcome :=
  | Stall
  | Ack (d : device) (data : list Z).

Definition bool_bit (b : bool) (n : Z) : Z := if b then Z.shiftl 1 n else 0.

Section dispatcher.
Variable EP0STALL : Z.
Variable store : descriptor_store.
(** The class/vendor collaborator, when one is registered. *)
Variable class_vendor_handler : option (setup_data.t → bool).

(** Modelled from the spec: GET_STATUS returns a 2-byte bitmap,
    self-powered and remote-wakeup for the device, the halt bit for an
    endpoint; interface recipient and unknown endpoints stall. *)
Definition get_status (d : device) (s : setup_data.t) : outcome :=
  let recip := request_recipient (setup_data.bmRequestType s) in
  if recip =? USB_RECIP_DEVICE then
    let self_powered :=
      negb (Z.land (usb_config_descriptor.bmAttributes (config_descriptor store))
              USB_CONFIG_ATTRIB_SELF_POWERED =? 0) in
    Ack d (to_bytes uint16_t
             (Z.lor (bool_bit self_powered 0) (bool_bit (remote_wakeup d) 1)))
  else if recip =? USB_RECIP_ENDPOINT then
    match endpoints d !! setup_data.wIndex s with
    | Some e => Ack d (to_bytes uint16_t (bool_bit (halted e) 0))
    | None => Stall
    end
  else Stall.

(** Modelled from the spec: CLEAR_FEATURE ([on = false]) and
    SET_FEATURE ([on = true]) recognise ENDPOINT_HALT for an endpoint
    recipient and DEVICE_REMOTE_WAKEUP for the device recipient; any
    other feature selector stalls. *)
Definition feature (on : bool) (d : device) (s : setup_data.t) : outcome :=
  let recip := request_recipient (setup_data.bmRequestType s) in
  let selector := setup_data.wValue s in
  if (selector =? ENDPOINT_HALT) && (recip =? USB_RECIP_ENDPOINT) then
    Ack (halt_endpoint (setup_data.wIndex s) on d) []
  else if (selector =? DEVICE_REMOTE_WAKEUP) && (recip =? USB_RECIP_DEVICE) then
    Ack (set_remote_wakeup on d) []
  else Stall.

(** Modelled from the spec: the high byte of wValue selects the
    descriptor type, the low byte the index, wIndex the language;
    NOT_FOUND stalls. *)
Definition get_descriptor (d : device) (s : setup_data.t) : outcome :=
  match getDescriptor store
          ((setup_data.wValue s / 256) mod 256)
          (setup_data.wValue s mod 256)
          (setup_data.wIndex s) with
  | Some bs => Ack d bs
  | None => Stall
  end.

Definition get_configuration (d : device) (s : setup_data.t) : outcome :=
  Ack d (to_bytes uint8_t (currentConfigurationValue (config_state d))).

(** Modelled from the spec: value 0 unconfigures, the value of the
    known configuration activates it, both reset every endpoint to
    not-halted; any other value stalls. *)
Definition set_configuration (d : device) (s : setup_data.t) : outcome :=
  let v := setup_data.wValue s in
  if (v =? 0)
     || (v =? usb_config_descriptor.bConfigurationValue (config_descriptor store))
  then Ack (set_configuration_value v (reset_endpoints d)) []
  else Stall.

Definition get_interface (d : device) (s : setup_data.t) : outcome :=
  match currentAlternateSetting (config_state d) !! setup_data.wIndex s with
  | Some a => Ack d (to_bytes uint8_t a)
  | None => Stall
  end.

Definition known_alternate_setting (i a : Z) : bool :=
  existsb
    (λ e, (usb_interface_descriptor.bInterfaceNumber (interface_descriptor e) =? i)
          && (usb_interface_descriptor.bAlternateSetting (interface_descriptor e) =? a))
    (interfaces store).

Definition set_interface (d : device) (s : setup_data.t) : outcome :=
  if known_alternate_setting (setup_data.wIndex s) (setup_data.wValue s) then
    Ack (set_alternate_setting (setup_data.wIndex s) (setup_data.wValue s)
           (reset_endpoints d)) []
  else Stall.

(** Modelled from the spec: standard requests are routed by bRequest;
    SET_ADDRESS only completes its status stage, SET_DESCRIPTOR and
    SYNCH_FRAME always stall, and so does every bRequest the header
    does not define. *)
Definition standard_request (d : device) (s : setup_data.t) : outcome :=
  let r := setup_data.bRequest s in
  if r =? USB_REQ_GET_STATUS then get_status d s
  else if r =? USB_REQ_CLEAR_FEATURE then feature false d s
  else if r =? USB_REQ_SET_FEATURE then feature true d s
  else if r =? USB_REQ_SET_ADDRESS then Ack d []
  else if r =? USB_REQ_GET_DESCRIPTOR then get_descriptor d s
  else if r =? USB_REQ_SET_DESCRIPTOR then Stall
  else if r =? USB_REQ_GET_CONFIGURATION then get_configuration d s
  else if r =? USB_REQ_SET_CONFIGURATION then set_configuration d s
  else if r =? USB_REQ_GET_INTERFACE then get_interface d s
  else if r =? USB_REQ_SET_INTERFACE then set_interface d s
  else if r =? USB_REQ_SYNCH_FRAME then Stall
  else Stall.

(** Modelled from the spec: classification by the type bits.  Only
    standard requests are handled here; class and vendor requests go to
    the collaborator or stall when none is registered. *)
Definition handle_setup (d : device) (s : setup_data.t) : outcome :=
  let ty := request_type (setup_data.bmRequestType s) in
  if ty =? USB_REQ_TYPE_STANDARD then standard_request d s
  else if (ty =? USB_REQ_TYPE_CLASS) || (ty =? USB_REQ_TYPE_VENDOR) then
    match class_vendor_handler with
    | Some h => if h s then Ack d [] else Stall
    | None => Stall
    end
  else Stall.

(** Modelled from the spec: the states of a control transfer. *)
Inductive ctrl_state :=
  | IDLE | SETUP_RECEIVED | DATA_IN | DATA_OUT | NO_DATA | STATUS | ERROR_STALL.

Record control := mk_control {
  state : ctrl_state;
  packet : setup_data.t;
  data : list Z;
  dev : device
}.

Definition stall_device (d : device) : device :=
  mk_device (STALL_EP0 EP0STALL (regs d)) (endpoints d) (config_state d)
    (remote_wakeup d).

(** The hardware drops the stall when the next SETUP token arrives. *)
Definition unstall_device (d : device) : device :=
  mk_device
    (mk_regs (Z.land (EP0CS (regs d)) (Z.lnot EP0STALL)) (EXIF (regs d)))
    (endpoints d) (config_state d) (remote_wakeup d).

(** Modelled from the spec: the step out of SETUP_RECEIVED.  A stall
    request leads to ERROR_STALL with the control endpoint stalled and
    nothing else changed; otherwise the data stage follows bit 7 of
    bmRequestType, wLength = 0 forces NO_DATA, and an IN data stage
    carries at most wLength bytes. *)
Definition dispatch (c : control) : control :=
  let s := packet c in
  match handle_setup (dev c) s with
  | Stall => mk_control ERROR_STALL s [] (stall_device (dev c))
  | Ack d' bs =>
      if setup_data.wLength s =? 0 then mk_control NO_DATA s [] d'
      else if request_direction (setup_data.bmRequestType s) =? USB_DIR_IN then
        mk_control DATA_IN s (take (Z.to_nat (setup_data.wLength s)) bs) d'
      else mk_control DATA_OUT s [] d'
  end.

Inductive event :=
  | setup_token
  | command_pending (s : setup_data.t)
  | run
  | stage_done.

(** Modelled from the spec: the transitions of the state machine.  The
    next SETUP token drops the hardware-latched stall and takes
    ERROR_STALL back to IDLE; the command-pending signal restarts at
    SETUP_RECEIVED from every state, abandoning a transfer in progress. *)
Definition step (c : control) (e : event) : control :=
  match e, state c with
  | setup_token, ERROR_STALL =>
      mk_control IDLE (packet c) [] (unstall_device (dev c))
  | setup_token, _ =>
      mk_control (state c) (packet c) (data c) (unstall_device (dev c))
  | command_pending s, _ => mk_control SETUP_RECEIVED s [] (dev c)
  | run, SETUP_RECEIVED => dispatch c
  | stage_done, (DATA_IN | DATA_OUT | NO_DATA) =>
      mk_control STATUS (packet c) [] (dev c)
  | stage_done, STATUS => mk_control IDLE (packet c) [] (dev c)
  | _, _ => c
  end.

Definition steps (c : control) (es : list event) : control :=
  foldl step c es.
End dispatcher.

(** What the feature requests recognise. *)
Definition recognised_feature (s : setup_data.t) : Prop :=
  (setup_data.wValue s = ENDPOINT_HALT
   ∧ request_recipient (setup_data.bmRequestType s) = USB_RECIP_ENDPOINT)
  ∨ (setup_data.wValue s = DEVICE_REMOTE_WAKEUP
     ∧ request_recipient (setup_data.bmRequestType s) = USB_RECIP_DEVICE).

(** ** Cross-context signal flags

    [extern volatile bool Semaphore_Command, Semaphore_EP2_out,
    Semaphore_EP2_in]. *)

Inductive semaphore := Semaphore_Command | Semaphore_EP2_out | Semaphore_EP2_in.

#[global] Instance semaphore_eq_dec : EqDecision semaphore.
Proof. solve_decision. Defined.

(** The program points of the foreground consumer of one flag. *)
Inductive consumer_pc := Poll | Check | Clear | Enable.

(** One flag with the interrupt source that raises it.  [irq] is the
    hardware's latched interrupt request, [enabled] the interrupt enable
    of the source.  [owed] and [consumed] are ghost state: [owed] holds
    from an event until a check of the consumer observes the flag set. *)
Record channel := mk_channel {
  flag : bool;
  irq : bool;
  enabled : bool;
  pc : consumer_pc;
  owed : bool;
  consumed : nat
}.

Inductive action :=
  | hw_event      (* the hardware raises the event *)
  | isr           (* the interrupt handler of the source runs *)
  | foreground.   (* the consumer executes its next instruction *)

(** Modelled from the spec: the handoff protocol of one flag.  The
    interrupt handler runs only while its source is enabled, sets the
    flag and clears the pending bit.  The consumer disables the source,
    checks the flag, clears it when set and enables the source again. *)
Definition channel_step (a : action) (c : channel) : channel :=
  match a with
  | hw_event =>
      mk_channel (flag c) true (enabled c) (pc c) true (consumed c)
  | isr =>
      if irq c && enabled c
      then mk_channel true false (enabled c) (pc c) (owed c) (consumed c)
      else c
  | foreground =>
      match pc c with
      | Poll => mk_channel (flag c) (irq c) false Check (owed c) (consumed c)
      | Check =>
          if flag c
          then mk_channel (flag c) (irq c) (enabled c) Clear false (consumed c)
          else mk_channel (flag c) (irq c) (enabled c) Enable (owed c) (consumed c)
      | Clear =>
          mk_channel false (irq c) (enabled c) Enable (owed c) (S (consumed c))
      | Enable => mk_channel (flag c) (irq c) true Poll (owed c) (consumed c)
      end
  end.

(** The same consumer without the interrupt mask, for comparison. *)
Definition unmasked_step (a : action) (c : channel) : channel :=
  match a, pc c with
  | foreground, Poll =>
      mk_channel (flag c) (irq c) (enabled c) Check (owed c) (consumed c)
  | _, _ => channel_step a c
  end.

Abbreviation system := (semaphore → channel).

Definition system_step (s : system) (l : semaphore * action) : system :=
  <[l.1 := channel_step l.2 (s l.1)]> s.

Definition run_system (s : system) (trace : list (semaphore * action)) : system :=
  foldl system_step s trace.

Definition channel_init : channel := mk_channel false false true Poll false 0.

Definition system_init : system := λ _, channel_init.

(** An event is lost when it is owed and neither the flag nor the
    pending bit records it. *)
Definition lost (c : channel) : bool := owed c && negb (flag c) && negb (irq c).

(** The invariant of the handoff: inside the critical section the source
    is disabled; at [Clear] the flag is set and whatever is owed is still
    latched in the pending bit; nothing is lost. *)
Definition channel_inv (c : channel) : bool :=
  negb (lost c)
  && match pc c with
     | Poll => enabled c
     | Check => negb (enabled c)
     | Clear => negb (enabled c) && flag c && (negb (owed c) || irq c)
     | Enable => negb (enabled c)
     end.

Definition run_channel (step : action → channel → channel) (c : channel)
    (trace : list action) : channel :=
  foldl (λ c a, step a c) c trace.

(** A schedule in which the interrupt handler gets a turn before every
    instruction of the consumer, long enough for one full pass. *)
Definition fair_schedule : list action :=
  [isr; foreground; isr; foreground; isr; foreground; isr; foreground;
   isr; foreground].

(** ** A sample firmware image *)

Definition sample_device : usb_device_descriptor.t :=
  usb_device_descriptor.mk 18 USB_DESCRIPTOR_TYPE_DEVICE 0x0110 0xff 0xff 0xff
    64 0x04b4 0x8613 0x0001 1 2 0 1.

Definition sample_endpoint (addr : Z) : usb_endpoint_descriptor.t :=
  usb_endpoint_descriptor.mk 7 USB_DESCRIPTOR_TYPE_ENDPOINT addr 2 64 0.

Definition sample_interface : interface_entry :=
  mk_interface
    (usb_interface_descriptor.mk 9 USB_DESCRIPTOR_TYPE_INTERFACE 0 0 2 0xff 0xff 0xff 0)
    [sample_endpoint 0x82; sample_endpoint 0x02].

Definition sample_store : descriptor_store :=
  mk_store sample_device
    (usb_config_descriptor.mk 9 USB_DESCRIPTOR_TYPE_CONFIGURATION 32 1 1 0 0x80 50)
    [sample_interface]
    (usb_language_descriptor.mk 4 USB_DESCRIPTOR_TYPE_STRING [USB_LANG_ENGLISH_US])
    [usb_string_descriptor.mk 6 USB_DESCRIPTOR_TYPE_STRING [0x65; 0x7a];
     usb_string_descriptor.mk 8 USB_DESCRIPTOR_TYPE_STRING [0x55; 0x53; 0x42]].

(** What the sample tables are built from: the lengths are left at 0. *)
Definition sample_tables : table_source :=
  mk_tables
    (usb_device_descriptor.mk 0 USB_DESCRIPTOR_TYPE_DEVICE 0x0110 0xff 0xff 0xff
       64 0x04b4 0x8613 0x0001 1 2 0 1)
    (usb_config_descriptor.mk 0 USB_DESCRIPTOR_TYPE_CONFIGURATION 0 1 1 0 0x80 50)
    [mk_interface
       (usb_interface_descriptor.mk 0 USB_DESCRIPTOR_TYPE_INTERFACE 0 0 2 0xff 0xff 0xff 0)
       [usb_endpoint_descriptor.mk 0 USB_DESCRIPTOR_TYPE_ENDPOINT 0x82 2 64 0;
        usb_endpoint_descriptor.mk 0 USB_DESCRIPTOR_TYPE_ENDPOINT 0x02 2 64 0]]
    [USB_LANG_ENGLISH_US]
    [[0x65; 0x7a]; [0x55; 0x53; 0x42]].

Definition sample_endpoints : gmap Z EndpointState :=
  <[0x82 := mk_endpoint 0x82 USB_DIR_IN 2 false]>
    (<[0x02 := mk_endpoint 0x02 USB_DIR_OUT 2 false]> ∅).

Definition sample_dev : device :=
  mk_device (mk_regs 0x02 0) sample_endpoints (mk_config_state 0 ∅) false.

Definition sample_control (s : setup_data.t) : control :=
  mk_control SETUP_RECEIVED s [] sample_dev.

(** ** The rest of the header

    The attribute masks of the descriptors, the LANGIDs, the
    interrupt numbers, reading a struct back from its bytes and the
    SETUP buffer at its fixed address. *)

(** use for usb_config_descriptor.bmAttributes *)
Definition USB_CONFIG_ATTRIB_RESERVED : Z := 0x80.
Definition USB_CONFIG_ATTRIB_REMOTE_WAKEUP : Z := 0x20.

(** use for usb_endpoint_descriptor.bEndpointAddress *)
Definition USB_ENDPOINT_ADDRESS_MASK : Z := 0x0f.
Definition USB_ENDPOINT_DIR_MASK : Z := 0x80.

(** use for usb_endpoint_descriptor.bmAttributes *)
Definition USB_ENDPOINT_TYPE_MASK : Z := 0x03.
Definition USB_ENDPOINT_TYPE_CONTROL : Z := 0.
Definition USB_ENDPOINT_TYPE_ISOCHRONOUS : Z := 1.
Definition USB_ENDPOINT_TYPE_BULK : Z := 2.
Definition USB_ENDPOINT_TYPE_INTERRUPT : Z := 3.

Definition usb_langids : list Z :=
  [USB_LANG_ENGLISH_US; USB_LANG_ENGLISH_UK; USB_LANG_GERMAN; USB_LANG_GERMAN_CH;
   USB_LANG_GERMAN_AT; USB_LANG_GERMAN_LU; USB_LANG_GERMAN_LI].

(** [enum usb_isr]: the USB interrupts of the EZ-USB core. *)
Inductive usb_isr :=
  | SUDAV_ISR | SOF_ISR | SUTOK_ISR | SUSPEND_ISR | USBRESET_ISR | IBN_ISR
  | EP0IN_ISR | EP0OUT_ISR | EP1IN_ISR | EP1OUT_ISR | EP2IN_ISR | EP2OUT_ISR
  | EP3IN_ISR | EP3OUT_ISR | EP4IN_ISR | EP4OUT_ISR | EP5IN_ISR | EP5OUT_ISR
  | EP6IN_ISR | EP6OUT_ISR | EP7IN_ISR | EP7OUT_ISR.

#[global] Instance usb_isr_eq_dec : EqDecision usb_isr.
Proof. solve_decision. Defined.

(** The enumerators as declared: only the first has an initialiser. *)
Definition usb_isr_enumerators : list (usb_isr * option Z) :=
  [(SUDAV_ISR, Some 13); (SOF_ISR, None); (SUTOK_ISR, None);
   (SUSPEND_ISR, None); (USBRESET_ISR, None); (IBN_ISR, None);
   (EP0IN_ISR, None); (EP0OUT_ISR, None); (EP1IN_ISR, None);
   (EP1OUT_ISR, None); (EP2IN_ISR, None); (EP2OUT_ISR, None);
   (EP3IN_ISR, None); (EP3OUT_ISR, None); (EP4IN_ISR, None);
   (EP4OUT_ISR, None); (EP5IN_ISR, None); (EP5OUT_ISR, None);
   (EP6IN_ISR, None); (EP6OUT_ISR, None); (EP7IN_ISR, None);
   (EP7OUT_ISR, None)].

(** The values C gives to the enumerators of an enum: the initialiser
    when there is one, else one more than the previous enumerator (zero
    for the first). *)
Fixpoint enum_values {A : Type} (next : Z) (l : list (A * option Z)) : list (A * Z) :=
  match l with
  | [] => []
  | (a, Some v) :: l' => (a, v) :: enum_values (v + 1) l'
  | (a, None) :: l' => (a, next) :: enum_values (next + 1) l'
  end.

Definition usb_isr_values : list (usb_isr * Z) :=
  enum_values 0 usb_isr_enumerators.

Definition usb_isr_value (i : usb_isr) : Z :=
  default 0 (snd <$> find (λ p, bool_decide (p.1 = i)) usb_isr_values).

(** The interrupt that has a given number, if any. *)
Definition usb_isr_of_value (v : Z) : option usb_isr :=
  fst <$> find (λ p, p.2 =? v) usb_isr_values.

(** Reading a member of type [t] from the bytes in front. *)
Definition from_bytes (t : ctype) (bs : list Z) : option (Z * list Z) :=
  match t, bs with
  | uint8_t, b :: r => Some (b, r)
  | uint16_t, lo :: hi :: r => Some (le16 lo hi, r)
  | _, _ => None
  end.

(** Reading the members of a struct, in declaration order, from a byte
    image; what follows the struct is handed back. *)
Fixpoint deserialise (d : struct_decl) (bs : list Z) : option (list Z * list Z) :=
  match d with
  | [] => Some ([], bs)
  | (_, t) :: d' =>
      match from_bytes t bs with
      | Some (v, r) =>
          match deserialise d' r with
          | Some (vs, r') => Some (v :: vs, r')
          | None => None
          end
      | None => None
      end
  end.

(** The values the members hold after the initialisers are stored. *)
Fixpoint stored (d : struct_decl) (vals : list Z) : list Z :=
  match d, vals with
  | (_, t) :: d', v :: vs => wrap t v :: stored d' vs
  | _, _ => []
  end.

(** The structs of the header. *)
Definition usb_structs : list struct_decl :=
  [usb_device_descriptor.decl; usb_config_descriptor.decl;
   usb_interface_descriptor.decl; usb_endpoint_descriptor.decl;
   usb_language_descriptor.decl; usb_string_descriptor.decl; setup_data.decl].

(** The 16-bit code units back from their bytes. *)
Fixpoint deserialise_units (bs : list Z) : list Z :=
  match bs with
  | lo :: hi :: r => le16 lo hi :: deserialise_units r
  | _ => []
  end.

(** External data memory: a byte at every address. *)
Abbreviation xdata := (Z → Z).

Definition xdata_read (t : ctype) (mem : xdata) (addr : Z) : Z :=
  match t with
  | uint8_t => mem addr
  | uint16_t => le16 (mem addr) (mem (addr + 1))
  end.

(** Bytes placed in memory from an address on. *)
Fixpoint xdata_store (mem : xdata) (addr : Z) (bs : list Z) : xdata :=
  match bs with
  | [] => mem
  | b :: r => xdata_store (<[addr := b]> mem) (addr + 1) r
  end.

(** [extern volatile __xdata __at 0x7FE8 struct setup_data setup_data;] *)
Definition setup_data_address : Z := 0x7FE8.

Definition member_address (base : Z) (d : struct_decl) (name : string) : Z :=
  base + Z.of_nat (default 0%nat (offsetof d name)).

(** The members of [setup_data] as the firmware reads them. *)
Definition read_setup_data (mem : xdata) : setup_data.t :=
  setup_data.mk
    (xdata_read uint8_t mem
       (member_address setup_data_address setup_data.decl "bmRequestType"))
    (xdata_read uint8_t mem
       (member_address setup_data_address setup_data.decl "bRequest"))
    (xdata_read uint16_t mem
       (member_address setup_data_address setup_data.decl "wValue"))
    (xdata_read uint16_t mem
       (member_address setup_data_address setup_data.decl "wIndex"))
    (xdata_read uint16_t mem
       (member_address setup_data_address setup_data.decl "wLength")).

(** Checks of the bit-mask facts on one value. *)
Definition request_type_roundtrip_ok (dir type recip : Z) : bool :=
  (request_direction (request_type_of dir type recip) =? dir)
  && (request_type (request_type_of dir type recip) =? type)
  && (request_recipient (request_type_of dir type recip) =? recip)
  && (0 <=? request_type_of dir type recip)
  && (request_type_of dir type recip <? 256).

Definition endpoint_masks_ok (b : Z) : bool :=
  (b =? Z.lor (Z.lor (Z.land b USB_ENDPOINT_ADDRESS_MASK)
                 (Z.land b USB_ENDPOINT_DIR_MASK)) (Z.land b 0x70))
  && (Z.land b USB_ENDPOINT_ADDRESS_MASK =? b mod 16)
  && (Z.land b USB_ENDPOINT_DIR_MASK =? request_direction b)
  && (Z.land b USB_ENDPOINT_TYPE_MASK =? b mod 4)
  && existsb (Z.eqb (Z.land b USB_ENDPOINT_TYPE_MASK))
       [USB_ENDPOINT_TYPE_CONTROL; USB_ENDPOINT_TYPE_ISOCHRONOUS;
        USB_ENDPOINT_TYPE_BULK; USB_ENDPOINT_TYPE_INTERRUPT].

Definition config_attributes_ok (b : Z) : bool :=
  (b =? Z.lor (Z.lor (Z.lor (Z.land b USB_CONFIG_ATTRIB_RESERVED)
                        (Z.land b USB_CONFIG_ATTRIB_SELF_POWERED))
                 (Z.land b USB_CONFIG_ATTRIB_REMOTE_WAKEUP)) (Z.land b 0x1f))
  && Bool.eqb (negb (Z.land b USB_CONFIG_ATTRIB_RESERVED =? 0)) (Z.testbit b 7)
  && Bool.eqb (negb (Z.land b USB_CONFIG_ATTRIB_SELF_POWERED =? 0)) (Z.testbit b 6)
  && Bool.eqb (negb (Z.land b USB_CONFIG_ATTRIB_REMOTE_WAKEUP =? 0)) (Z.testbit b 5).

(** A LANGID of the header: an [int] made of a primary language in the
    low ten bits and a sublanguage above them. *)
Definition langid_ok (id : Z) : bool :=
  (0 <=? id) && (id <=? INT_MAX)
  && ((Z.land id 0x3ff =? 0x009) || (Z.land id 0x3ff =? 0x007))
  && (1 <=? Z.shiftr id 10) && (Z.shiftr id 10 <=? 5)
  && (id =? Z.lor (Z.land id 0x3ff) (Z.shiftl (Z.shiftr id 10) 10)).

(** * Theorems *)

(** ** Bytes and bit fields *)

Lemma byte_forall (P : Z → bool) :
  forallb P (seqZ 0 256) = true → ∀ b, 0 ≤ b < 256 → P b = true.
Proof.
  intros HP b Hb. rewrite forallb_forall in HP. apply HP.
  apply list_elem_of_In, elem_of_seqZ. lia.
Qed.

Lemma le16_to_bytes (v : Z) :
  le16 (v mod 256) ((v / 256) mod 256) = v mod 65536.
Proof.
  unfold le16. change 65536 with (256 * 256).
  rewrite Z.rem_mul_r by lia. reflexivity.
Qed.

Lemma wrap_uint8_small (v : Z) : 0 ≤ v < 256 → wrap uint8_t v = v.
Proof. intros H. unfold wrap. apply Z.mod_small, H. Qed.

Lemma lor_byte (a b : Z) : 0 ≤ a < 256 → 0 ≤ b < 256 → 0 ≤ Z.lor a b < 256.
Proof.
  intros Ha Hb. split; [apply Z.lor_nonneg; lia |].
  destruct (Z.eq_dec (Z.lor a b) 0) as [-> | Hne]; [lia |].
  assert (0 < Z.lor a b) by (assert (0 ≤ Z.lor a b) by (apply Z.lor_nonneg; lia); lia).
  apply (Z.log2_lt_pow2 _ 8); [assumption |].
  rewrite Z.log2_lor by lia.
  apply Z.max_lub_lt.
  - destruct (Z.eq_dec a 0) as [-> | ?]; [reflexivity |].
    apply Z.log2_lt_pow2; lia.
  - destruct (Z.eq_dec b 0) as [-> | ?]; [reflexivity |].
    apply Z.log2_lt_pow2; lia.
Qed.

(** ** Layout of the structs *)

Lemma length_to_bytes (t : ctype) (v : Z) : length (to_bytes t v) = sizeof t.
Proof. destruct t; reflexivity. Qed.


(** C1: a SETUP packet is 8 bytes: bmRequestType (1), bRequest (1), wValue
    (2), wIndex (2), wLength (2), in this order; the byte image of any
    [setup_data] value has length 8 and carries the request code in the
    single byte at offset 1. *)
Theorem C1_setup_data_layout :
  setup_data.decl =
    [("bmRequestType", uint8_t); ("bRequest", uint8_t); ("wValue", uint16_t);
     ("wIndex", uint16_t); ("wLength", uint16_t)]%string
  ∧ map (λ f, sizeof f.2) setup_data.decl = [1; 1; 2; 2; 2]%nat
  ∧ struct_size setup_data.decl = 8%nat
  ∧ offsetof setup_data.decl "bRequest" = Some 1%nat
  ∧ (sizeof <$> field_type setup_data.decl "bRequest") = Some 1%nat
  ∧ ∀ s : setup_data.t,
      length (setup_data.bytes s) = 8%nat
      ∧ setup_data.bytes s !! 1%nat = Some (wrap uint8_t (setup_data.bRequest s))
      ∧ setup_data.bytes s =
          to_bytes uint8_t (setup_data.bmRequestType s)
          ++ to_bytes uint8_t (setup_data.bRequest s)
          ++ to_bytes uint16_t (setup_data.wValue s)
          ++ to_bytes uint16_t (setup_data.wIndex s)
          ++ to_bytes uint16_t (setup_data.wLength s).
Proof.
  repeat split; reflexivity.
Qed.

(** C3: the byte image of a device descriptor is 18 bytes, of a
    configuration descriptor 9, of an interface descriptor 9 and of an
    endpoint descriptor 7, each the concatenation of its members in
    declaration order with their declared widths; the device descriptor
    has 14 members. *)
Theorem C3_descriptor_layout :
  (length usb_device_descriptor.decl = 14%nat
   ∧ struct_size usb_device_descriptor.decl = 18%nat
   ∧ map (λ f, sizeof f.2) usb_device_descriptor.decl
       = [1; 1; 2; 1; 1; 1; 1; 2; 2; 2; 1; 1; 1; 1]%nat
   ∧ ∀ d, length (usb_device_descriptor.bytes d) = 18%nat
       ∧ usb_device_descriptor.bytes d =
           to_bytes uint8_t (usb_device_descriptor.bLength d)
           ++ to_bytes uint8_t (usb_device_descriptor.bDescriptorType d)
           ++ to_bytes uint16_t (usb_device_descriptor.bcdUSB d)
           ++ to_bytes uint8_t (usb_device_descriptor.bDeviceClass d)
           ++ to_bytes uint8_t (usb_device_descriptor.bDeviceSubClass d)
           ++ to_bytes uint8_t (usb_device_descriptor.bDeviceProtocol d)
           ++ to_bytes uint8_t (usb_device_descriptor.bMaxPacketSize0 d)
           ++ to_bytes uint16_t (usb_device_descriptor.idVendor d)
           ++ to_bytes uint16_t (usb_device_descriptor.idProduct d)
           ++ to_bytes uint16_t (usb_device_descriptor.bcdDevice d)
           ++ to_bytes uint8_t (usb_device_descriptor.iManufacturer d)
           ++ to_bytes uint8_t (usb_device_descriptor.iProduct d)
           ++ to_bytes uint8_t (usb_device_descriptor.iSerialNumber d)
           ++ to_bytes uint8_t (usb_device_descriptor.bNumConfigurations d))
  ∧ (struct_size usb_config_descriptor.decl = 9%nat
     ∧ map (λ f, sizeof f.2) usb_config_descriptor.decl
         = [1; 1; 2; 1; 1; 1; 1; 1]%nat
     ∧ ∀ c, length (usb_config_descriptor.bytes c) = 9%nat
         ∧ usb_config_descriptor.bytes c =
             to_bytes uint8_t (usb_config_descriptor.bLength c)
             ++ to_bytes uint8_t (usb_config_descriptor.bDescriptorType c)
             ++ to_bytes uint16_t (usb_config_descriptor.wTotalLength c)
             ++ to_bytes uint8_t (usb_config_descriptor.bNumInterfaces c)
             ++ to_bytes uint8_t (usb_config_descriptor.bConfigurationValue c)
             ++ to_bytes uint8_t (usb_config_descriptor.iConfiguration c)
             ++ to_bytes uint8_t (usb_config_descriptor.bmAttributes c)
             ++ to_bytes uint8_t (usb_config_descriptor.MaxPower c))
  ∧ (struct_size usb_interface_descriptor.decl = 9%nat
     ∧ map (λ f, sizeof f.2) usb_interface_descriptor.decl
         = [1; 1; 1; 1; 1; 1; 1; 1; 1]%nat
     ∧ ∀ i, length (usb_interface_descriptor.bytes i) = 9%nat
         ∧ usb_interface_descriptor.bytes i =
             to_bytes uint8_t (usb_interface_descriptor.bLength i)
             ++ to_bytes uint8_t (usb_interface_descriptor.bDescriptorType i)
             ++ to_bytes uint8_t (usb_interface_descriptor.bInterfaceNumber i)
             ++ to_bytes uint8_t (usb_interface_descriptor.bAlternateSetting i)
             ++ to_bytes uint8_t (usb_interface_descriptor.bNumEndpoints i)
             ++ to_bytes uint8_t (usb_interface_descriptor.bInterfaceClass i)
             ++ to_bytes uint8_t (usb_interface_descriptor.bInterfaceSubclass i)
             ++ to_bytes uint8_t (usb_interface_descriptor.bInterfaceProtocol i)
             ++ to_bytes uint8_t (usb_interface_descriptor.iInterface i))
  ∧ (struct_size usb_endpoint_descriptor.decl = 7%nat
     ∧ map (λ f, sizeof f.2) usb_endpoint_descriptor.decl
         = [1; 1; 1; 1; 2; 1]%nat
     ∧ ∀ e, length (usb_endpoint_descriptor.bytes e) = 7%nat
         ∧ usb_endpoint_descriptor.bytes e =
             to_bytes uint8_t (usb_endpoint_descriptor.bLength e)
             ++ to_bytes uint8_t (usb_endpoint_descriptor.bDescriptorType e)
             ++ to_bytes uint8_t (usb_endpoint_descriptor.bEndpointAddress e)
             ++ to_bytes uint8_t (usb_endpoint_descriptor.bmAttributes e)
             ++ to_bytes uint16_t (usb_endpoint_descriptor.wMaxPacketSize e)
             ++ to_bytes uint8_t (usb_endpoint_descriptor.bInterval e)).
Proof.
  repeat split; reflexivity.
Qed.

(** ** bmRequestType *)

(** C2: in every bmRequestType byte bit 7 is the direction (USB_DIR_IN =
    0x80, USB_DIR_OUT = 0x00), bits 6-5 the type (Standard 0, Class 1,
    Vendor 2, Reserved 3, shifted left by 5) and bits 4-0 the recipient
    (Device 0, Interface 1, Endpoint 2, Other 3); every composite
    USB_RECIP_* constant is the OR of its direction, the Standard type
    and its recipient, and decodes to them. *)
Theorem C2_bmRequestType_layout (b : Z) (Hb : 0 ≤ b < 256) :
  (b = Z.lor (Z.lor (request_direction b) (request_type b)) (request_recipient b)
   ∧ request_direction b = (if Z.testbit b 7 then USB_DIR_IN else USB_DIR_OUT)
   ∧ request_type b = Z.shiftl (request_type_code b) 5
   ∧ request_type_code b = (b / 32) mod 4
   ∧ request_recipient b = b mod 32)
  ∧ (USB_DIR_IN = 0x80 ∧ USB_DIR_OUT = 0x00)
  ∧ (USB_REQ_TYPE_STANDARD = Z.shiftl 0 5 ∧ USB_REQ_TYPE_CLASS = Z.shiftl 1 5
     ∧ USB_REQ_TYPE_VENDOR = Z.shiftl 2 5 ∧ USB_REQ_TYPE_RESERVED = Z.shiftl 3 5)
  ∧ (USB_RECIP_DEVICE = 0 ∧ USB_RECIP_INTERFACE = 1
     ∧ USB_RECIP_ENDPOINT = 2 ∧ USB_RECIP_OTHER = 3)
  ∧ length standard_request_types = 16%nat
  ∧ Forall
      (λ c, c.1.1 = Z.lor (Z.lor c.1.2 USB_REQ_TYPE_STANDARD) c.2
            ∧ request_direction c.1.1 = c.1.2
            ∧ request_type c.1.1 = USB_REQ_TYPE_STANDARD
            ∧ request_recipient c.1.1 = c.2)
      standard_request_types.
Proof.
  split.
  - assert (H : bmRequestType_fields_ok b = true)
      by (apply byte_forall; [vm_compute; reflexivity | exact Hb]).
    unfold bmRequestType_fields_ok in H.
    repeat (apply andb_prop in H; destruct H as [H ?]).
    repeat split; apply Z.eqb_eq; assumption.
  - repeat split. repeat constructor.
Qed.

Lemma C2_bmRequestType_layout_witness :
  0 ≤ 0x82 < 256
  ∧ request_direction 0x82 = USB_DIR_IN
  ∧ request_type 0x82 = USB_REQ_TYPE_STANDARD
  ∧ request_recipient 0x82 = USB_RECIP_ENDPOINT.
Proof.
  assert (Hb : 0 ≤ 0x82 < 256) by lia.
  split; [exact Hb |].
  pose proof (C2_bmRequestType_layout 0x82 Hb) as [(_ & Hd & _ & _ & _) _].
  split; [exact Hd |]. split; reflexivity.
Defined.

(** ** The register macros *)

(** C10: STALL_EP0 ORs the EP0STALL mask into EP0CS: afterwards the
    EP0STALL bit is set in EP0CS, every other bit of EP0CS has its prior
    value, and no other register changes. *)
Theorem C10_STALL_EP0_frame (EP0STALL : Z) (r : ezusb_regs)
    (Hr : 0 ≤ EP0CS r < 256) (Hm : 0 ≤ EP0STALL < 256) :
  EP0CS (STALL_EP0 EP0STALL r) = Z.lor (EP0CS r) EP0STALL
  ∧ Z.land (EP0CS (STALL_EP0 EP0STALL r)) EP0STALL = EP0STALL
  ∧ (∀ i, Z.testbit EP0STALL i = true →
          Z.testbit (EP0CS (STALL_EP0 EP0STALL r)) i = true)
  ∧ (∀ i, Z.testbit EP0STALL i = false →
          Z.testbit (EP0CS (STALL_EP0 EP0STALL r)) i = Z.testbit (EP0CS r) i)
  ∧ EXIF (STALL_EP0 EP0STALL r) = EXIF r.
Proof.
  assert (He : EP0CS (STALL_EP0 EP0STALL r) = Z.lor (EP0CS r) EP0STALL).
  { cbn [STALL_EP0 EP0CS]. apply wrap_uint8_small, lor_byte; assumption. }
  rewrite He. repeat split.
  - apply Z.bits_inj'; intros n _. rewrite Z.land_spec, Z.lor_spec.
    destruct (Z.testbit (EP0CS r) n), (Z.testbit EP0STALL n); reflexivity.
  - intros i Hi. rewrite Z.lor_spec, Hi. apply orb_true_r.
  - intros i Hi. rewrite Z.lor_spec, Hi. apply orb_false_r.
Qed.

Lemma C10_STALL_EP0_frame_witness :
  EP0CS (STALL_EP0 0x01 (mk_regs 0x02 0x10)) = 0x03
  ∧ EXIF (STALL_EP0 0x01 (mk_regs 0x02 0x10)) = 0x10.
Proof.
  assert (Hr : 0 ≤ EP0CS (mk_regs 0x02 0x10) < 256) by (simpl; lia).
  assert (Hm : 0 ≤ 0x01 < 256) by lia.
  destruct (C10_STALL_EP0_frame 0x01 (mk_regs 0x02 0x10) Hr Hm)
    as (He & _ & _ & _ & Hx).
  split; [rewrite He; reflexivity | exact Hx].
Defined.

(** ** Descriptor Store *)










Lemma int_value_in (z : Z) : INT_MIN ≤ z ≤ INT_MAX → int_value z = Some z.
Proof.
  intros [Hl Hu]. unfold int_value.
  apply Z.leb_le in Hl, Hu. rewrite Hl, Hu. reflexivity.
Qed.


Lemma STR_DESCR_literal (n : Z) (units : list Z) :
  0 ≤ n ≤ 16382 →
  STR_DESCR (literal n) units
  = Some (usb_string_descriptor.mk ((n * 2 + 2) mod 256)
            USB_DESCRIPTOR_TYPE_STRING units).
Proof.
  intros Hn. unfold STR_DESCR, STR_DESCR_bLength, literal.
  cbn [eval_additive eval_multiplicative eval_primary].
  destruct (Z.leb_spec 0 n) as [_ |]; [| lia].
  rewrite (int_value_in n) by (unfold INT_MIN, INT_MAX; lia).
  change (if 0 <=? 2 then int_value 2 else None) with (Some 2). cbv beta iota.
  rewrite (int_value_in (n * 2)) by (unfold INT_MIN, INT_MAX; lia).
  rewrite (int_value_in (n * 2 + 2)) by (unfold INT_MIN, INT_MAX; lia).
  reflexivity.
Qed.



Lemma build_strings_some (strings : list (list Z)) :
  Forall (λ u, Z.of_nat (length u) ≤ 16382) strings →
  ∃ ss, build_strings strings = Some ss.
Proof.
  induction 1 as [| u strings Hu _ [ss IH]]; [exists []; reflexivity |].
  cbn [build_strings]. rewrite STR_DESCR_literal by lia. rewrite IH.
  eexists. reflexivity.
Qed.

Lemma build_store_defined (src : table_source) :
  Forall (λ u, Z.of_nat (length u) ≤ 16382) (src_strings src) →
  ∃ st, build_store src = Some st.
Proof.
  intros [ss Hss]%build_strings_some. unfold build_store. rewrite Hss.
  eexists. reflexivity.
Qed.

(** The build of the sample tables gives the sample image. *)
Example sample_tables_built : build_store sample_tables = Some sample_store.
Proof. reflexivity. Qed.






(** ** Control Request Dispatcher *)

Lemma dispatch_stall (EP0STALL : Z) (store : descriptor_store)
    (h : option (setup_data.t → bool)) (c : control) :
  handle_setup store h (dev c) (packet c) = Stall →
  dispatch EP0STALL store h c
  = mk_control ERROR_STALL (packet c) [] (stall_device EP0STALL (dev c)).
Proof. unfold dispatch. intros ->. reflexivity. Qed.

Lemma dispatch_ack (EP0STALL : Z) (store : descriptor_store)
    (h : option (setup_data.t → bool)) (c : control) (d' : device) (bs : list Z) :
  handle_setup store h (dev c) (packet c) = Ack d' bs →
  state (dispatch EP0STALL store h c) ≠ ERROR_STALL
  ∧ dev (dispatch EP0STALL store h c) = d'.
Proof.
  unfold dispatch. intros ->.
  destruct (setup_data.wLength (packet c) =? 0); [split; [discriminate | reflexivity] |].
  destruct (request_direction _ =? USB_DIR_IN); split; try discriminate; reflexivity.
Qed.

Lemma handle_setup_standard (store : descriptor_store)
    (h : option (setup_data.t → bool)) (d : device) (s : setup_data.t) :
  request_type (setup_data.bmRequestType s) = USB_REQ_TYPE_STANDARD →
  handle_setup store h d s = standard_request store d s.
Proof. unfold handle_setup. intros ->. reflexivity. Qed.

Lemma standard_request_undefined (store : descriptor_store) (d : device)
    (s : setup_data.t) :
  setup_data.bRequest s ∉ usb_requests → standard_request store d s = Stall.
Proof.
  unfold usb_requests. rewrite !not_elem_of_cons.
  intros (? & ? & ? & ? & ? & ? & ? & ? & ? & ? & ? & _).
  unfold standard_request.
  repeat match goal with
         | |- context [?a =? ?b] =>
             destruct (Z.eqb_spec a b); [contradiction |]
         end.
  reflexivity.
Qed.

(** C4: for every standard SETUP request whose bRequest is not one of
    the defined request codes 0, 1, 3, 5, 6, 7, 8, 9, 10, 11 and 12 (the
    reserved values 2 and 4 in particular) the dispatcher goes to
    ERROR_STALL, stalls the control endpoint with STALL_EP0 and runs no
    handler: no data is queued and the endpoint table, the configuration
    state and the remote-wakeup feature are unchanged. *)
Theorem C4_undefined_request_stalls (EP0STALL : Z) (store : descriptor_store)
    (h : option (setup_data.t → bool)) (c : control)
    (Hstate : state c = SETUP_RECEIVED)
    (Hstd : request_type (setup_data.bmRequestType (packet c)) = USB_REQ_TYPE_STANDARD)
    (Hreq : setup_data.bRequest (packet c) ∉ usb_requests) :
  (usb_requests = [0; 1; 3; 5; 6; 7; 8; 9; 10; 11; 12]
   ∧ (2 ∉ usb_requests) ∧ (4 ∉ usb_requests))
  ∧ standard_request store (dev c) (packet c) = Stall
  ∧ state (step EP0STALL store h c run) = ERROR_STALL
  ∧ data (step EP0STALL store h c run) = []
  ∧ regs (dev (step EP0STALL store h c run)) = STALL_EP0 EP0STALL (regs (dev c))
  ∧ endpoints (dev (step EP0STALL store h c run)) = endpoints (dev c)
  ∧ config_state (dev (step EP0STALL store h c run)) = config_state (dev c)
  ∧ remote_wakeup (dev (step EP0STALL store h c run)) = remote_wakeup (dev c).
Proof.
  split.
  { split; [reflexivity |].
    unfold usb_requests. split; rewrite !not_elem_of_cons;
      repeat split; try discriminate; apply not_elem_of_nil. }
  pose proof (standard_request_undefined store (dev c) (packet c) Hreq) as Hs.
  split; [exact Hs |].
  unfold step. rewrite Hstate.
  rewrite dispatch_stall by (rewrite handle_setup_standard; assumption).
  repeat split.
Qed.

Lemma C4_undefined_request_stalls_witness :
  state (step 0x01 sample_store None
           (sample_control (setup_data.mk USB_RECIP_CF_DEVICE 2 0 0 0)) run)
  = ERROR_STALL
  ∧ EP0CS (regs (dev (step 0x01 sample_store None
                        (sample_control (setup_data.mk USB_RECIP_CF_DEVICE 4 0 0 0))
                        run))) = 0x03.
Proof.
  assert (H2 : (2 ∉ usb_requests) ∧ (4 ∉ usb_requests)).
  { unfold usb_requests. split; rewrite !not_elem_of_cons;
      repeat split; try discriminate; apply not_elem_of_nil. }
  destruct H2 as [H2 H4].
  pose proof (C4_undefined_request_stalls 0x01 sample_store None
                (sample_control (setup_data.mk USB_RECIP_CF_DEVICE 2 0 0 0))
                eq_refl eq_refl H2) as (_ & _ & Hs & _).
  pose proof (C4_undefined_request_stalls 0x01 sample_store None
                (sample_control (setup_data.mk USB_RECIP_CF_DEVICE 4 0 0 0))
                eq_refl eq_refl H4) as (_ & _ & _ & _ & Hr & _).
  split; [exact Hs |]. rewrite Hr. reflexivity.
Defined.

Lemma feature_cases (on : bool) (d : device) (s : setup_data.t) :
  (recognised_feature s ∧ ∃ d', feature on d s = Ack d' []
   ∧ (setup_data.wValue s = ENDPOINT_HALT →
        d' = halt_endpoint (setup_data.wIndex s) on d)
   ∧ (setup_data.wValue s = DEVICE_REMOTE_WAKEUP → d' = set_remote_wakeup on d))
  ∨ (¬ recognised_feature s ∧ feature on d s = Stall).
Proof.
  unfold feature, recognised_feature.
  destruct (Z.eqb_spec (setup_data.wValue s) ENDPOINT_HALT) as [Hv | Hv];
    destruct (Z.eqb_spec (request_recipient (setup_data.bmRequestType s))
                USB_RECIP_ENDPOINT) as [Hr | Hr]; cbn [andb].
  1: { left. split; [left; done |]. eexists. split; [reflexivity |].
       split; [done |]. rewrite Hv. discriminate. }
  all: destruct (Z.eqb_spec (setup_data.wValue s) DEVICE_REMOTE_WAKEUP) as [Hw | Hw];
    destruct (Z.eqb_spec (request_recipient (setup_data.bmRequestType s))
                USB_RECIP_DEVICE) as [Hd | Hd]; cbn [andb].
  all: try (right; split; [| reflexivity]; intros [[? ?] | [? ?]]; congruence).
  all: try (left; split; [right; done |]; eexists; split; [reflexivity |];
            split; [rewrite Hw; discriminate | done]).
  all: exfalso; rewrite Hv in Hw; discriminate.
Qed.

Lemma standard_request_feature (store : descriptor_store) (d : device)
    (s : setup_data.t) :
  setup_data.bRequest s = USB_REQ_CLEAR_FEATURE
  ∨ setup_data.bRequest s = USB_REQ_SET_FEATURE →
  standard_request store d s
  = feature (setup_data.bRequest s =? USB_REQ_SET_FEATURE) d s.
Proof. unfold standard_request. intros [-> | ->]; reflexivity. Qed.

(** C5: a CLEAR_FEATURE or SET_FEATURE request is executed only when the
    feature selector is ENDPOINT_HALT (0) with an endpoint recipient or
    DEVICE_REMOTE_WAKEUP (1) with the device recipient; with any other
    selector the dispatcher goes to ERROR_STALL and stalls the control
    endpoint, leaving everything else as it was. *)
Theorem C5_feature_selector (EP0STALL : Z) (store : descriptor_store)
    (h : option (setup_data.t → bool)) (c : control)
    (Hstate : state c = SETUP_RECEIVED)
    (Hstd : request_type (setup_data.bmRequestType (packet c)) = USB_REQ_TYPE_STANDARD)
    (Hreq : setup_data.bRequest (packet c) = USB_REQ_CLEAR_FEATURE
            ∨ setup_data.bRequest (packet c) = USB_REQ_SET_FEATURE) :
  (ENDPOINT_HALT = 0 ∧ DEVICE_REMOTE_WAKEUP = 1)
  ∧ (state (step EP0STALL store h c run) ≠ ERROR_STALL
     ↔ recognised_feature (packet c))
  ∧ (recognised_feature (packet c) →
       dev (step EP0STALL store h c run)
       = if setup_data.wValue (packet c) =? ENDPOINT_HALT
         then halt_endpoint (setup_data.wIndex (packet c))
                (setup_data.bRequest (packet c) =? USB_REQ_SET_FEATURE) (dev c)
         else set_remote_wakeup
                (setup_data.bRequest (packet c) =? USB_REQ_SET_FEATURE) (dev c))
  ∧ (¬ recognised_feature (packet c) →
       step EP0STALL store h c run
       = mk_control ERROR_STALL (packet c) [] (stall_device EP0STALL (dev c)))
  ∧ (setup_data.wValue (packet c) ≠ ENDPOINT_HALT →
     setup_data.wValue (packet c) ≠ DEVICE_REMOTE_WAKEUP →
       state (step EP0STALL store h c run) = ERROR_STALL
       ∧ regs (dev (step EP0STALL store h c run))
         = STALL_EP0 EP0STALL (regs (dev c))).
Proof.
  split; [split; reflexivity |].
  assert (Hh : handle_setup store h (dev c) (packet c)
               = feature (setup_data.bRequest (packet c) =? USB_REQ_SET_FEATURE)
                   (dev c) (packet c)).
  { rewrite handle_setup_standard by assumption.
    apply standard_request_feature, Hreq. }
  unfold step. rewrite Hstate.
  destruct (feature_cases (setup_data.bRequest (packet c) =? USB_REQ_SET_FEATURE)
              (dev c) (packet c)) as [(Hrec & d' & Hf & Hhalt & Hwake) | (Hrec & Hf)];
    rewrite Hf in Hh.
  - destruct (dispatch_ack EP0STALL store h c d' [] Hh) as [Hne Hdev].
    split; [split; intros; assumption |]. split; [| split; [contradiction |]].
    + intros _. rewrite Hdev.
      destruct Hrec as [[Hv _] | [Hv _]].
      * rewrite Hv at 1. cbn. apply Hhalt, Hv.
      * rewrite Hv at 1. cbn. apply Hwake, Hv.
    + intros H0 H1. exfalso. destruct Hrec as [[Hv _] | [Hv _]]; contradiction.
  - rewrite (dispatch_stall EP0STALL store h c Hh). cbn.
    split; [split; [intros H; contradiction | contradiction] |].
    split; [contradiction |]. split; [reflexivity |]. split; reflexivity.
Qed.

Lemma C5_feature_selector_witness :
  state (step 0x01 sample_store None
           (sample_control (setup_data.mk USB_RECIP_SF_ENDPOINT 3 2 0x82 0)) run)
  = ERROR_STALL
  ∧ (halted <$> endpoints
       (dev (step 0x01 sample_store None
               (sample_control (setup_data.mk USB_RECIP_SF_ENDPOINT 3 0 0x82 0))
               run)) !! 0x82) = Some true.
Proof.
  split.
  - pose proof (C5_feature_selector 0x01 sample_store None
                  (sample_control (setup_data.mk USB_RECIP_SF_ENDPOINT 3 2 0x82 0))
                  eq_refl eq_refl (or_intror eq_refl)) as (_ & _ & _ & _ & Hs).
    apply Hs; discriminate.
  - pose proof (C5_feature_selector 0x01 sample_store None
                  (sample_control (setup_data.mk USB_RECIP_SF_ENDPOINT 3 0 0x82 0))
                  eq_refl eq_refl (or_intror eq_refl)) as (_ & _ & Hd & _).
    rewrite Hd by (left; split; reflexivity). vm_compute. reflexivity.
Defined.

Lemma standard_request_get_descriptor (store : descriptor_store) (d : device)
    (s : setup_data.t) :
  setup_data.bRequest s = USB_REQ_GET_DESCRIPTOR →
  standard_request store d s = get_descriptor store d s.
Proof. unfold standard_request. intros ->. reflexivity. Qed.

(** C8: when a GET_DESCRIPTOR request locates its descriptor, the data
    stage carries the first min(descriptor length, wLength) bytes of it:
    a shorter wLength truncates and never stalls, a wLength at least the
    descriptor length returns the whole descriptor. *)
Theorem C8_get_descriptor_length (EP0STALL : Z) (store : descriptor_store)
    (h : option (setup_data.t → bool)) (c : control) (bs : list Z)
    (Hstate : state c = SETUP_RECEIVED)
    (Hstd : request_type (setup_data.bmRequestType (packet c)) = USB_REQ_TYPE_STANDARD)
    (Hin : request_direction (setup_data.bmRequestType (packet c)) = USB_DIR_IN)
    (Hreq : setup_data.bRequest (packet c) = USB_REQ_GET_DESCRIPTOR)
    (Hfound : getDescriptor store
                ((setup_data.wValue (packet c) / 256) mod 256)
                (setup_data.wValue (packet c) mod 256)
                (setup_data.wIndex (packet c)) = Some bs)
    (Hlen : 0 ≤ setup_data.wLength (packet c)) :
  state (step EP0STALL store h c run) ≠ ERROR_STALL
  ∧ dev (step EP0STALL store h c run) = dev c
  ∧ data (step EP0STALL store h c run)
    = take (Z.to_nat (setup_data.wLength (packet c))) bs
  ∧ Z.of_nat (length (data (step EP0STALL store h c run)))
    = Z.min (Z.of_nat (length bs)) (setup_data.wLength (packet c))
  ∧ (Z.of_nat (length bs) ≤ setup_data.wLength (packet c) →
       data (step EP0STALL store h c run) = bs).
Proof.
  assert (Hh : handle_setup store h (dev c) (packet c) = Ack (dev c) bs).
  { rewrite handle_setup_standard, standard_request_get_descriptor by assumption.
    unfold get_descriptor. rewrite Hfound. reflexivity. }
  unfold step. rewrite Hstate.
  destruct (dispatch_ack EP0STALL store h c (dev c) bs Hh) as [Hne Hdev].
  assert (Hdata : data (dispatch EP0STALL store h c)
                  = take (Z.to_nat (setup_data.wLength (packet c))) bs).
  { unfold dispatch. rewrite Hh, Hin.
    destruct (Z.eqb_spec (setup_data.wLength (packet c)) 0) as [-> | ?];
      reflexivity. }
  split; [exact Hne |]. split; [exact Hdev |]. split; [exact Hdata |].
  rewrite Hdata. split.
  - rewrite length_take. lia.
  - intros Hle. apply take_ge. lia.
Qed.

Lemma C8_get_descriptor_length_witness :
  data (step 0x01 sample_store None
          (sample_control (setup_data.mk USB_RECIP_GD_DEVICE 6 0x0100 0 64)) run)
  = usb_device_descriptor.bytes sample_device
  ∧ length (usb_device_descriptor.bytes sample_device) = 18%nat
  ∧ state (steps 0x01 sample_store None
             (sample_control (setup_data.mk USB_RECIP_GD_DEVICE 6 0x0100 0 64))
             [run; stage_done; stage_done]) = IDLE.
Proof.
  assert (Hlen : 0 ≤ 64) by lia.
  pose proof (C8_get_descriptor_length 0x01 sample_store None
                (sample_control (setup_data.mk USB_RECIP_GD_DEVICE 6 0x0100 0 64))
                (usb_device_descriptor.bytes sample_device)
                eq_refl eq_refl eq_refl eq_refl eq_refl Hlen)
    as (_ & _ & _ & _ & Hfull).
  split; [apply Hfull; vm_compute; discriminate |].
  split; reflexivity.
Defined.

(** Scenarios on the sample image. *)

Example sample_language_descriptor :
  getDescriptor sample_store USB_DESCRIPTOR_TYPE_STRING 0 0 = Some [4; 3; 0x09; 0x04].
Proof. reflexivity. Qed.

Example sample_unsupported_language :
  getDescriptor sample_store USB_DESCRIPTOR_TYPE_STRING 1 USB_LANG_GERMAN = None.
Proof. reflexivity. Qed.

Example sample_truncated_configuration :
  data (step 0x01 sample_store None
          (sample_control (setup_data.mk USB_RECIP_GD_DEVICE 6 0x0200 0 9)) run)
  = [9; 2; 32; 0; 1; 1; 0; 0x80; 50].
Proof. reflexivity. Qed.

Example sample_halt_then_status :
  data (steps 0x01 sample_store None
          (sample_control (setup_data.mk USB_RECIP_SF_ENDPOINT 3 0 0x82 0))
          [run; stage_done; stage_done;
           command_pending (setup_data.mk USB_RECIP_GS_ENDPOINT 0 0 0x82 2); run])
  = [1; 0].
Proof. vm_compute. reflexivity. Qed.

Example sample_set_descriptor_stalls :
  state (step 0x01 sample_store None
           (sample_control (setup_data.mk USB_RECIP_SD_DEVICE 7 0x0100 0 18)) run)
  = ERROR_STALL.
Proof. reflexivity. Qed.

Example sample_stall_cleared_by_setup :
  state (steps 0x01 sample_store None
           (sample_control (setup_data.mk USB_RECIP_CF_DEVICE 2 0 0 0))
           [run; setup_token]) = IDLE
  ∧ EP0CS (regs (dev (steps 0x01 sample_store None
                        (sample_control (setup_data.mk USB_RECIP_CF_DEVICE 2 0 0 0))
                        [run; setup_token]))) = 0x02.
Proof. split; reflexivity. Qed.

(** ** Cross-context signal flags *)

Lemma channel_step_inv (a : action) (c : channel) :
  channel_inv c = true → channel_inv (channel_step a c) = true.
Proof.
  destruct c as [[] [] [] [] [] n], a; cbn; intros H;
    first [reflexivity | discriminate H].
Qed.

Lemma channel_inv_not_lost (c : channel) : channel_inv c = true → lost c = false.
Proof.
  unfold channel_inv. intros [H _]%andb_prop. apply negb_true_iff, H.
Qed.

Lemma system_step_lookup (s : system) (g f : semaphore) (a : action) :
  system_step s (g, a) f = if decide (g = f) then channel_step a (s f) else s f.
Proof.
  unfold system_step. cbn [fst snd]. destruct (decide (g = f)) as [-> | Hne].
  - apply fn_lookup_insert.
  - apply fn_lookup_insert_ne, Hne.
Qed.

Lemma run_system_inv (trace : list (semaphore * action)) (s : system) :
  (∀ f, channel_inv (s f) = true) →
  ∀ f, channel_inv (run_system s trace f) = true.
Proof.
  unfold run_system. revert s.
  induction trace as [| [g a] trace IH]; intros s Hs f; [apply Hs |].
  cbn [foldl]. apply IH. intros f'. rewrite system_step_lookup.
  destruct (decide (g = f')); [apply channel_step_inv |]; apply Hs.
Qed.

Lemma owed_event_consumed (c : channel) :
  channel_inv c = true → owed c = true →
  (consumed c < consumed (run_channel channel_step c fair_schedule))%nat.
Proof.
  destruct c as [[] [] [] [] [] n]; cbn; intros H Ho;
    first [discriminate H | discriminate Ho | lia].
Qed.

(** The window between check and clear is reached, and only the flag
    that was stepped has moved. *)
Example command_flag_in_window :
  pc (run_system system_init
        [(Semaphore_Command, hw_event); (Semaphore_Command, isr);
         (Semaphore_EP2_out, hw_event);
         (Semaphore_Command, foreground); (Semaphore_Command, foreground)]
        Semaphore_Command) = Clear
  ∧ run_system system_init
      [(Semaphore_Command, hw_event); (Semaphore_Command, isr);
       (Semaphore_EP2_out, hw_event);
       (Semaphore_Command, foreground); (Semaphore_Command, foreground)]
      Semaphore_EP2_in = channel_init.
Proof. split; reflexivity. Qed.

(** C9: each flag is set only by its interrupt handler and cleared only
    by its foreground consumer, a step on one flag leaves the others
    alone, and in every interleaving of hardware events, interrupt
    handlers and consumer instructions the check-and-clear is atomic
    with respect to the producer: between check and clear the handler
    cannot run, an event raised in that window stays latched and sets
    the flag again once the consumer leaves the window, and no event is
    ever lost. *)
Theorem C9_flag_handoff (trace : list (semaphore * action)) (f : semaphore) :
  lost (run_system system_init trace f) = false
  ∧ (pc (run_system system_init trace f) = Check
     ∨ pc (run_system system_init trace f) = Clear →
       channel_step isr (run_system system_init trace f)
       = run_system system_init trace f)
  ∧ (pc (run_system system_init trace f) = Clear →
       lost (run_channel channel_step (run_system system_init trace f)
               [hw_event; isr; foreground]) = false
       ∧ flag (run_channel channel_step (run_system system_init trace f)
                 [hw_event; isr; foreground; isr; foreground; isr]) = true)
  ∧ (owed (run_system system_init trace f) = true →
       (consumed (run_system system_init trace f)
        < consumed (run_channel channel_step (run_system system_init trace f)
                      fair_schedule))%nat)
  ∧ (∀ c, flag (channel_step hw_event c) = flag c
          ∧ (flag c = true → flag (channel_step isr c) = true)
          ∧ (flag c = false → flag (channel_step foreground c) = false))
  ∧ (∀ g a, g ≠ f →
       system_step (run_system system_init trace) (g, a) f
       = run_system system_init trace f).
Proof.
  assert (Hinv : channel_inv (run_system system_init trace f) = true)
    by (apply run_system_inv; intros; reflexivity).
  split; [apply channel_inv_not_lost, Hinv |].
  split; [| split; [| split; [apply owed_event_consumed, Hinv | split]]].
  - revert Hinv. destruct (run_system system_init trace f) as [[] [] [] [] [] n];
      cbn; intros H [Hp | Hp]; first [reflexivity | discriminate].
  - revert Hinv. destruct (run_system system_init trace f) as [[] [] [] [] [] n];
      cbn; intros H Hp; first [split; reflexivity | discriminate].
  - intros c. split; [reflexivity |]. split.
    + intros Hc. cbn. destruct (irq c && enabled c); [reflexivity | exact Hc].
    + intros Hc. cbn. rewrite Hc. destruct (pc c); cbn; first [reflexivity | exact Hc].
  - intros g a Hne. rewrite system_step_lookup.
    destruct (decide (g = f)); [contradiction | reflexivity].
Qed.

(** Without the interrupt mask the same consumer loses an event that
    the handler delivers between the check and the clear. *)
Lemma unmasked_consumer_loses_event :
  lost (run_channel unmasked_step channel_init
          [hw_event; isr; foreground; foreground; hw_event; isr; foreground])
  = true.
Proof. reflexivity. Qed.


(** * The rest of the header *)

(** ** The register macros, continued *)

Lemma wrap_uint8_testbit (v i : Z) :
  0 ≤ i → Z.testbit (wrap uint8_t v) i = (i <? 8) && Z.testbit v i.
Proof.
  intros Hi. unfold wrap. change 256 with (2 ^ 8).
  destruct (Z.ltb_spec i 8).
  - rewrite Z.mod_pow2_bits_low by lia. reflexivity.
  - rewrite Z.mod_pow2_bits_high by lia. reflexivity.
Qed.

Lemma wrap_uint8_range (v : Z) : 0 ≤ wrap uint8_t v < 256.
Proof. unfold wrap. apply Z.mod_pos_bound. lia. Qed.

(** X1: CLEAR_IRQ clears in EXIF exactly the bits of the USBINT mask:
    every bit of the mask is 0 afterwards, every other bit of the
    register keeps its value, the result is a byte and EP0CS is not
    touched. *)
Theorem X1_CLEAR_IRQ_frame (USBINT : Z) (r : ezusb_regs) (i : Z)
    (Hi : 0 ≤ i < 8) :
  Z.testbit (EXIF (CLEAR_IRQ USBINT r)) i
  = Z.testbit (EXIF r) i && negb (Z.testbit USBINT i)
  ∧ (Z.testbit USBINT i = true → Z.testbit (EXIF (CLEAR_IRQ USBINT r)) i = false)
  ∧ (Z.testbit USBINT i = false →
       Z.testbit (EXIF (CLEAR_IRQ USBINT r)) i = Z.testbit (EXIF r) i)
  ∧ 0 ≤ EXIF (CLEAR_IRQ USBINT r) < 256
  ∧ EP0CS (CLEAR_IRQ USBINT r) = EP0CS r.
Proof.
  assert (Hb : Z.testbit (EXIF (CLEAR_IRQ USBINT r)) i
               = Z.testbit (EXIF r) i && negb (Z.testbit USBINT i)).
  { cbn [CLEAR_IRQ EXIF]. rewrite wrap_uint8_testbit by lia.
    rewrite Z.land_spec, Z.lnot_spec by lia.
    destruct (Z.ltb_spec i 8); [reflexivity | lia]. }
  split; [exact Hb |]. rewrite Hb. split; [| split; [| split]].
  - intros ->. apply andb_false_r.
  - intros ->. apply andb_true_r.
  - apply wrap_uint8_range.
  - reflexivity.
Qed.

Lemma X1_CLEAR_IRQ_frame_witness :
  Z.testbit (EXIF (CLEAR_IRQ 0x10 (mk_regs 0x02 0x91))) 4 = false
  ∧ EXIF (CLEAR_IRQ 0x10 (mk_regs 0x02 0x91)) = 0x81.
Proof.
  assert (Hi : 0 ≤ 4 < 8) by lia.
  destruct (X1_CLEAR_IRQ_frame 0x10 (mk_regs 0x02 0x91) 4 Hi) as (_ & Hc & _).
  split; [apply Hc; reflexivity | reflexivity].
Defined.

(** X2: both macros are idempotent, they commute, and whatever the
    register held before, EP0CS after STALL_EP0 is a byte; STALL_EP0
    clears no bit of the byte in EP0CS and CLEAR_IRQ sets no bit of
    EXIF. *)
Theorem X2_macros_idempotent_commute (EP0STALL USBINT : Z) (r : ezusb_regs) :
  STALL_EP0 EP0STALL (STALL_EP0 EP0STALL r) = STALL_EP0 EP0STALL r
  ∧ CLEAR_IRQ USBINT (CLEAR_IRQ USBINT r) = CLEAR_IRQ USBINT r
  ∧ STALL_EP0 EP0STALL (CLEAR_IRQ USBINT r) = CLEAR_IRQ USBINT (STALL_EP0 EP0STALL r)
  ∧ 0 ≤ EP0CS (STALL_EP0 EP0STALL r) < 256
  ∧ Z.land (wrap uint8_t (EP0CS r)) (EP0CS (STALL_EP0 EP0STALL r))
    = wrap uint8_t (EP0CS r)
  ∧ Z.lor (EXIF r) (EXIF (CLEAR_IRQ USBINT r)) = EXIF r.
Proof.
  split; [| split; [| split; [reflexivity | split; [apply wrap_uint8_range | split]]]].
  - unfold STALL_EP0. cbn [EP0CS EXIF]. f_equal.
    apply Z.bits_inj'. intros n Hn.
    rewrite !wrap_uint8_testbit, !Z.lor_spec, wrap_uint8_testbit, Z.lor_spec by lia.
    destruct (n <? 8), (Z.testbit (EP0CS r) n), (Z.testbit EP0STALL n); reflexivity.
  - unfold CLEAR_IRQ. cbn [EP0CS EXIF]. f_equal.
    apply Z.bits_inj'. intros n Hn.
    rewrite !wrap_uint8_testbit, !Z.land_spec, wrap_uint8_testbit, Z.land_spec by lia.
    destruct (n <? 8), (Z.testbit (EXIF r) n), (Z.testbit (Z.lnot USBINT) n);
      reflexivity.
  - cbn [STALL_EP0 EP0CS]. apply Z.bits_inj'. intros n Hn.
    rewrite Z.land_spec, !wrap_uint8_testbit, Z.lor_spec by lia.
    destruct (n <? 8), (Z.testbit (EP0CS r) n), (Z.testbit EP0STALL n); reflexivity.
  - cbn [CLEAR_IRQ EXIF]. apply Z.bits_inj'. intros n Hn.
    rewrite Z.lor_spec, wrap_uint8_testbit, Z.land_spec by lia.
    destruct (n <? 8), (Z.testbit (EXIF r) n), (Z.testbit (Z.lnot USBINT) n);
      reflexivity.
Qed.

(** ** bmRequestType, continued *)

Lemma seqZ_forall (P : Z → bool) (n : Z) :
  forallb P (seqZ 0 n) = true → ∀ b, 0 ≤ b < n → P b = true.
Proof.
  intros HP b Hb. rewrite forallb_forall in HP. apply HP.
  apply list_elem_of_In, elem_of_seqZ. lia.
Qed.

(** X3: composing a bmRequestType from a direction, a type and a
    recipient and reading the three fields back returns them, and the
    composite is a byte: the three fields do not overlap. *)
Theorem X3_request_type_roundtrip (dir type recip : Z)
    (Hdir : dir = USB_DIR_OUT ∨ dir = USB_DIR_IN)
    (Htype : type = USB_REQ_TYPE_STANDARD ∨ type = USB_REQ_TYPE_CLASS
             ∨ type = USB_REQ_TYPE_VENDOR ∨ type = USB_REQ_TYPE_RESERVED)
    (Hrecip : 0 ≤ recip < 32) :
  request_direction (request_type_of dir type recip) = dir
  ∧ request_type (request_type_of dir type recip) = type
  ∧ request_recipient (request_type_of dir type recip) = recip
  ∧ 0 ≤ request_type_of dir type recip < 256.
Proof.
  assert (H : request_type_roundtrip_ok dir type recip = true).
  { destruct Hdir as [-> | ->];
      destruct Htype as [-> | [-> | [-> | ->]]];
      (apply seqZ_forall with (n := 32); [vm_compute; reflexivity | exact Hrecip]). }
  unfold request_type_roundtrip_ok in H.
  repeat (apply andb_prop in H; destruct H as [H ?]).
  repeat match goal with
         | E : (_ =? _) = true |- _ => apply Z.eqb_eq in E
         | E : (_ <? _) = true |- _ => apply Z.ltb_lt in E
         | E : (_ <=? _) = true |- _ => apply Z.leb_le in E
         end.
  repeat split; assumption.
Qed.

Lemma X3_request_type_roundtrip_witness :
  request_direction (request_type_of USB_DIR_IN USB_REQ_TYPE_VENDOR 3) = USB_DIR_IN
  ∧ request_type (request_type_of USB_DIR_IN USB_REQ_TYPE_VENDOR 3) = USB_REQ_TYPE_VENDOR
  ∧ request_type_of USB_DIR_IN USB_REQ_TYPE_VENDOR 3 = 0xc3.
Proof.
  assert (Hr : 0 ≤ 3 < 32) by lia.
  destruct (X3_request_type_roundtrip USB_DIR_IN USB_REQ_TYPE_VENDOR 3
              (or_intror eq_refl) (or_intror (or_intror (or_introl eq_refl))) Hr)
    as (Hd & Ht & _).
  split; [exact Hd |]. split; [exact Ht | reflexivity].
Defined.

(** ** The interrupt numbers *)

Lemma usb_isr_values_sound :
  Forall (λ p, usb_isr_value p.1 = p.2 ∧ 13 ≤ p.2 ≤ 34) usb_isr_values.
Proof.
  unfold usb_isr_values, usb_isr_enumerators. cbn [enum_values].
  repeat (apply Forall_cons; split; [split; [reflexivity | cbn; lia] |]).
  constructor.
Qed.

Lemma usb_isr_of_value_some (v : Z) (i : usb_isr) :
  usb_isr_of_value v = Some i → usb_isr_value i = v ∧ 13 ≤ v ≤ 34.
Proof.
  unfold usb_isr_of_value.
  destruct (find (λ p, p.2 =? v) usb_isr_values) as [p |] eqn:Hf; [| discriminate].
  intros [= <-]. apply find_some in Hf as [Hin Hv]. apply Z.eqb_eq in Hv.
  pose proof usb_isr_values_sound as Hs. rewrite Forall_forall in Hs.
  apply list_elem_of_In, Hs in Hin. rewrite <- Hv. exact Hin.
Qed.

(** X4: the enumerators of [enum usb_isr] are numbered consecutively
    from 13 (SUDAV_ISR) to 34 (EP7OUT_ISR) in declaration order; no two
    interrupts share a number, a number read back gives its interrupt,
    and no number outside 13..34 names one. *)
Theorem X4_usb_isr_numbering (i : usb_isr) :
  13 ≤ usb_isr_value i ≤ 34
  ∧ usb_isr_of_value (usb_isr_value i) = Some i
  ∧ (∀ j, usb_isr_value j = usb_isr_value i → j = i)
  ∧ (∀ v, usb_isr_of_value v = Some i ↔ v = usb_isr_value i)
  ∧ (∀ v, v < 13 ∨ 34 < v → usb_isr_of_value v = None)
  ∧ (∀ k e, usb_isr_enumerators !! k = Some e →
            usb_isr_value e.1 = 13 + Z.of_nat k)
  ∧ length usb_isr_enumerators = 22%nat.
Proof.
  assert (Hround : ∀ j, usb_isr_of_value (usb_isr_value j) = Some j)
    by (intros []; reflexivity).
  split; [destruct i; split; apply Z.leb_le; reflexivity |].
  split; [apply Hround |].
  split; [| split; [| split; [| split; [| reflexivity]]]].
  - intros j Hj. pose proof (Hround j) as H. rewrite Hj, Hround in H.
    congruence.
  - intros v. split.
    + intros H. apply usb_isr_of_value_some in H as [H _]. congruence.
    + intros ->. apply Hround.
  - intros v Hv. destruct (usb_isr_of_value v) as [j |] eqn:Hj; [| reflexivity].
    apply usb_isr_of_value_some in Hj. lia.
  - intros k e.
    do 22 (destruct k as [| k]; [intros [= <-]; reflexivity |]).
    discriminate.
Qed.

(** ** STR_DESCR, continued *)







(** ** Members and their bytes *)

Lemma serialise_length (d : struct_decl) (vals : list Z) :
  length vals = length d → length (serialise d vals) = struct_size d.
Proof.
  revert vals. induction d as [| [n t] d IH]; intros [| v vs] Hl;
    try discriminate; [reflexivity |].
  change (struct_size ((n, t) :: d)) with (sizeof t + struct_size d)%nat.
  cbn [serialise]. rewrite length_app, length_to_bytes. f_equal. apply IH.
  cbn in Hl. lia.
Qed.

Lemma member_at_offset (d : struct_decl) :
  NoDup d.*1 →
  ∀ vals k name t v,
    d !! k = Some (name, t) → vals !! k = Some v → length vals = length d →
    ∃ o, offsetof d name = Some o
         ∧ (o + sizeof t ≤ struct_size d)%nat
         ∧ take (sizeof t) (drop o (serialise d vals)) = to_bytes t v.
Proof.
  induction d as [| [n0 t0] d IH]; intros Hnd vals k name t v Hk Hv Hl;
    [discriminate |].
  apply NoDup_cons in Hnd as [Hn0 Hnd].
  destruct vals as [| v0 vs]; [discriminate |].
  destruct k as [| k].
  - injection Hk as -> ->. injection Hv as ->.
    exists 0%nat. cbn [offsetof]. rewrite String.eqb_refl.
    split; [reflexivity |].
    split; [change (struct_size ((name, t) :: d)) with (sizeof t + struct_size d)%nat;
            lia |].
    cbn [drop serialise]. apply take_app_length'. symmetry. apply length_to_bytes.
  - cbn in Hk, Hv.
    destruct (IH Hnd vs k name t v Hk Hv ltac:(cbn in Hl; lia)) as (o & Ho & Hle & Hb).
    exists (sizeof t0 + o)%nat. cbn [offsetof].
    assert (Hne : String.eqb n0 name = false).
    { apply String.eqb_neq. intros ->. apply Hn0.
      apply list_elem_of_fmap. exists (name, t). split; [reflexivity |].
      eapply list_elem_of_lookup_2, Hk. }
    rewrite Hne, Ho. split; [reflexivity |].
    split; [change (struct_size ((n0, t0) :: d)) with (sizeof t0 + struct_size d)%nat;
            lia |].
    cbn [serialise]. rewrite drop_app_add' by (symmetry; apply length_to_bytes).
    exact Hb.
Qed.

Lemma usb_structs_NoDup (d : struct_decl) : d ∈ usb_structs → NoDup d.*1.
Proof.
  unfold usb_structs. rewrite !elem_of_cons, elem_of_nil.
  intros [-> | [-> | [-> | [-> | [-> | [-> | [-> | []]]]]]]];
    (apply (bool_decide_unpack _); vm_compute; exact I).
Qed.

(** X6: in the byte image of every struct of the header, each member
    occupies the bytes from its [offsetof] on, as many as its type is
    wide and within the struct's size, and they are the little-endian
    bytes of the member's value; the image is as long as the struct. *)
Theorem X6_member_at_offset (d : struct_decl) (vals : list Z) (k : nat)
    (name : string) (t : ctype) (v : Z)
    (Hd : d ∈ usb_structs) (Hk : d !! k = Some (name, t))
    (Hv : vals !! k = Some v) (Hl : length vals = length d) :
  length (serialise d vals) = struct_size d
  ∧ ∃ o, offsetof d name = Some o
         ∧ (o + sizeof t ≤ struct_size d)%nat
         ∧ take (sizeof t) (drop o (serialise d vals)) = to_bytes t v.
Proof.
  split; [apply serialise_length, Hl |].
  eapply member_at_offset; eauto using usb_structs_NoDup.
Qed.

Lemma X6_member_at_offset_witness :
  ∃ o, offsetof usb_endpoint_descriptor.decl "wMaxPacketSize" = Some o
       ∧ (o + 2 ≤ 7)%nat
       ∧ take 2 (drop o (usb_endpoint_descriptor.bytes (sample_endpoint 0x82)))
         = [64; 0].
Proof.
  assert (Hd : usb_endpoint_descriptor.decl ∈ usb_structs)
    by (unfold usb_structs; rewrite !elem_of_cons; tauto).
  destruct (X6_member_at_offset usb_endpoint_descriptor.decl
              (usb_endpoint_descriptor.fields (sample_endpoint 0x82)) 4
              "wMaxPacketSize" uint16_t 64 Hd eq_refl eq_refl eq_refl)
    as (_ & o & Ho & Hle & Hb).
  exists o. split; [exact Ho |]. split; [exact Hle | exact Hb].
Defined.

Lemma from_bytes_to_bytes (t : ctype) (v : Z) (rest : list Z) :
  from_bytes t (to_bytes t v ++ rest) = Some (wrap t v, rest).
Proof.
  destruct t; cbn; [reflexivity |]. rewrite le16_to_bytes. reflexivity.
Qed.

Lemma deserialise_serialise (d : struct_decl) (vals rest : list Z) :
  length vals = length d →
  deserialise d (serialise d vals ++ rest) = Some (stored d vals, rest).
Proof.
  revert vals. induction d as [| [n t] d IH]; intros [| v vs] Hl;
    try discriminate; [reflexivity |].
  cbn [serialise deserialise stored]. rewrite <- app_assoc, from_bytes_to_bytes.
  rewrite IH by (cbn in Hl; lia). reflexivity.
Qed.

Lemma from_bytes_short (t : ctype) (bs : list Z) :
  (length bs < sizeof t)%nat → from_bytes t bs = None.
Proof. destruct t, bs as [| ? [| ? ?]]; cbn; intros; first [reflexivity | lia]. Qed.

Lemma from_bytes_length (t : ctype) (bs r : list Z) (v : Z) :
  from_bytes t bs = Some (v, r) → length bs = (sizeof t + length r)%nat.
Proof.
  destruct t, bs as [| ? [| ? ?]]; cbn; intros [= <- <-] || intros [=];
    reflexivity.
Qed.

Lemma deserialise_short (d : struct_decl) (bs : list Z) :
  (length bs < struct_size d)%nat → deserialise d bs = None.
Proof.
  revert bs. induction d as [| [n t] d IH]; intros bs Hl; [cbn in Hl; lia |].
  cbn [deserialise].
  change (struct_size ((n, t) :: d)) with (sizeof t + struct_size d)%nat in Hl.
  destruct (from_bytes t bs) as [[v r] |] eqn:Hf; [| reflexivity].
  apply from_bytes_length in Hf. rewrite IH; [reflexivity | lia].
Qed.

Lemma stored_in_range (d : struct_decl) (vals : list Z) :
  Forall2 (λ f v, wrap f.2 v = v) d vals → stored d vals = vals.
Proof.
  induction 1 as [| [n t] v d vals Hv _ IH]; [reflexivity |].
  cbn [stored]. cbn in Hv. rewrite Hv, IH. reflexivity.
Qed.

Lemma deserialise_serialise_units (units : list Z) :
  deserialise_units (serialise_units units) = wrap uint16_t <$> units.
Proof.
  unfold serialise_units. induction units as [| u units IH]; [reflexivity |].
  cbn [map concat to_bytes app deserialise_units fmap list_fmap].
  rewrite le16_to_bytes. f_equal. exact IH.
Qed.

(** X7: reading the members of a struct back from its byte image
    returns the values as stored (each reduced to the width of its
    member, so unchanged when it fits) and hands back what follows the
    struct untouched; an image shorter than the struct cannot be read;
    the code units of a flexible array read back the same way. *)
Theorem X7_deserialise_serialise (d : struct_decl) (vals rest : list Z)
    (Hl : length vals = length d) :
  deserialise d (serialise d vals ++ rest) = Some (stored d vals, rest)
  ∧ (Forall2 (λ f v, wrap f.2 v = v) d vals →
       deserialise d (serialise d vals ++ rest) = Some (vals, rest))
  ∧ (∀ bs, (length bs < struct_size d)%nat → deserialise d bs = None)
  ∧ (∀ units, deserialise_units (serialise_units units) = wrap uint16_t <$> units).
Proof.
  pose proof (deserialise_serialise d vals rest Hl) as H.
  split; [exact H |]. split; [| split].
  - intros Hr. rewrite H, (stored_in_range _ _ Hr). reflexivity.
  - apply deserialise_short.
  - apply deserialise_serialise_units.
Qed.

Lemma X7_deserialise_serialise_witness :
  deserialise setup_data.decl
    (setup_data.bytes (setup_data.mk USB_RECIP_GD_DEVICE 6 0x0100 0 64) ++ [0xaa])
  = Some ([0x80; 6; 0x0100; 0; 64], [0xaa])
  ∧ deserialise setup_data.decl [0x80; 6; 0; 1; 0; 0; 64] = None.
Proof.
  destruct (X7_deserialise_serialise setup_data.decl
              (setup_data.fields (setup_data.mk USB_RECIP_GD_DEVICE 6 0x0100 0 64))
              [0xaa] eq_refl) as (H & _ & Hshort & _).
  split; [exact H |]. apply Hshort. cbn. lia.
Defined.

(** ** The SETUP buffer at its address *)

Lemma xdata_store_outside (bs : list Z) (mem : xdata) (addr a : Z) :
  a < addr ∨ addr + Z.of_nat (length bs) ≤ a → xdata_store mem addr bs a = mem a.
Proof.
  revert mem addr. induction bs as [| b bs IH]; intros mem addr Ha; [reflexivity |].
  cbn [xdata_store]. rewrite IH by (cbn [length] in Ha; lia).
  apply fn_lookup_insert_ne. cbn [length] in Ha. lia.
Qed.

Lemma xdata_store_inside (bs : list Z) (mem : xdata) (addr : Z) (k : nat) (b : Z) :
  bs !! k = Some b → xdata_store mem addr bs (addr + Z.of_nat k) = b.
Proof.
  revert mem addr k. induction bs as [| b0 bs IH]; intros mem addr k Hk;
    [discriminate |].
  cbn [xdata_store]. destruct k as [| k].
  - injection Hk as ->. rewrite Z.add_0_r, xdata_store_outside by lia.
    apply fn_lookup_insert.
  - replace (addr + Z.of_nat (S k)) with (addr + 1 + Z.of_nat k) by lia.
    apply IH, Hk.
Qed.

Lemma read_setup_data_members (mem : xdata) :
  read_setup_data mem
  = setup_data.mk (mem 0x7FE8) (mem 0x7FE9)
      (le16 (mem 0x7FEA) (mem 0x7FEB))
      (le16 (mem 0x7FEC) (mem 0x7FED))
      (le16 (mem 0x7FEE) (mem 0x7FEF)).
Proof. reflexivity. Qed.

(** X8: [setup_data] lies at 0x7FE8..0x7FEF of external data memory.
    Once the eight bytes of a SETUP packet are there, the members read
    the packet's fields, each reduced to its width; what the members
    read depends on these eight addresses only, and a write to any other
    address changes none of them. *)
Theorem X8_setup_data_at_address (mem : xdata) (s : setup_data.t) :
  read_setup_data (xdata_store mem setup_data_address (setup_data.bytes s))
  = setup_data.mk
      (wrap uint8_t (setup_data.bmRequestType s))
      (wrap uint8_t (setup_data.bRequest s))
      (wrap uint16_t (setup_data.wValue s))
      (wrap uint16_t (setup_data.wIndex s))
      (wrap uint16_t (setup_data.wLength s))
  ∧ (∀ a, a < 0x7FE8 ∨ 0x7FEF < a →
          xdata_store mem setup_data_address (setup_data.bytes s) a = mem a)
  ∧ (∀ mem' : xdata,
       (∀ a, 0x7FE8 ≤ a ≤ 0x7FEF → mem' a = mem a) →
       read_setup_data mem' = read_setup_data mem)
  ∧ (∀ a b, a < 0x7FE8 ∨ 0x7FEF < a →
            read_setup_data (<[a := b]> mem) = read_setup_data mem)
  ∧ map (member_address setup_data_address setup_data.decl)
      (setup_data.decl.*1)
    = [0x7FE8; 0x7FE9; 0x7FEA; 0x7FEC; 0x7FEE]
  ∧ setup_data_address + Z.of_nat (struct_size setup_data.decl) - 1 = 0x7FEF.
Proof.
  assert (Hframe : ∀ mem' : xdata,
             (∀ a, 0x7FE8 ≤ a ≤ 0x7FEF → mem' a = mem a) →
             read_setup_data mem' = read_setup_data mem).
  { intros mem' H. rewrite !read_setup_data_members.
    rewrite !H by lia. reflexivity. }
  split; [| split; [| split; [exact Hframe | split; [| split; reflexivity]]]].
  - rewrite read_setup_data_members. unfold setup_data_address.
    assert (H : ∀ (k : nat) (a b : Z),
               a = 0x7FE8 + Z.of_nat k → setup_data.bytes s !! k = Some b →
               xdata_store mem 0x7FE8 (setup_data.bytes s) a = b)
      by (intros k a b ->; apply xdata_store_inside).
    rewrite (H 0%nat 0x7FE8 _ eq_refl eq_refl), (H 1%nat 0x7FE9 _ eq_refl eq_refl),
      (H 2%nat 0x7FEA _ eq_refl eq_refl), (H 3%nat 0x7FEB _ eq_refl eq_refl),
      (H 4%nat 0x7FEC _ eq_refl eq_refl), (H 5%nat 0x7FED _ eq_refl eq_refl),
      (H 6%nat 0x7FEE _ eq_refl eq_refl), (H 7%nat 0x7FEF _ eq_refl eq_refl).
    rewrite !le16_to_bytes. reflexivity.
  - intros a Ha. apply xdata_store_outside. unfold setup_data_address.
    change (length (setup_data.bytes s)) with 8%nat. lia.
  - intros a b Ha. apply Hframe. intros a' Ha'.
    apply fn_lookup_insert_ne. lia.
Qed.

(** ** Attribute masks and language identifiers *)

(** X9: in every byte the endpoint address mask selects the low four
    bits and the direction mask bit 7, the same bit as the direction of a
    request; together with bits 6..4 they make up the byte.  The type
    mask selects the low two bits, and the four USB_ENDPOINT_TYPE_*
    constants are all the values it can give. *)
Theorem X9_endpoint_masks (b : Z) (Hb : 0 ≤ b < 256) :
  b = Z.lor (Z.lor (Z.land b USB_ENDPOINT_ADDRESS_MASK)
               (Z.land b USB_ENDPOINT_DIR_MASK)) (Z.land b 0x70)
  ∧ Z.land b USB_ENDPOINT_ADDRESS_MASK = b mod 16
  ∧ Z.land b USB_ENDPOINT_DIR_MASK = request_direction b
  ∧ Z.land b USB_ENDPOINT_TYPE_MASK = b mod 4
  ∧ Z.land b USB_ENDPOINT_TYPE_MASK
    ∈ [USB_ENDPOINT_TYPE_CONTROL; USB_ENDPOINT_TYPE_ISOCHRONOUS;
       USB_ENDPOINT_TYPE_BULK; USB_ENDPOINT_TYPE_INTERRUPT].
Proof.
  assert (H : endpoint_masks_ok b = true)
    by (apply byte_forall; [vm_compute; reflexivity | exact Hb]).
  unfold endpoint_masks_ok in H.
  apply andb_prop in H as [H Hex].
  repeat (apply andb_prop in H; destruct H as [H ?]).
  repeat match goal with
         | E : (_ =? _) = true |- _ => apply Z.eqb_eq in E
         end.
  repeat (split; [assumption |]).
  apply existsb_exists in Hex as (x & Hin & Hx).
  apply Z.eqb_eq in Hx. rewrite Hx. apply list_elem_of_In, Hin.
Qed.

Lemma X9_endpoint_masks_witness :
  Z.land 0x82 USB_ENDPOINT_ADDRESS_MASK = 2
  ∧ Z.land 0x82 USB_ENDPOINT_DIR_MASK = USB_DIR_IN.
Proof.
  assert (Hb : 0 ≤ 0x82 < 256) by lia.
  destruct (X9_endpoint_masks 0x82 Hb) as (_ & Ha & Hd & _).
  split; [exact Ha | exact Hd].
Defined.

(** X10: the three USB_CONFIG_ATTRIB_* masks are bits 7, 6 and 5 of
    bmAttributes: each is set in a byte exactly when its bit is, and with
    the low five bits they make up the byte without overlap. *)
Theorem X10_config_attributes (b : Z) (Hb : 0 ≤ b < 256) :
  b = Z.lor (Z.lor (Z.lor (Z.land b USB_CONFIG_ATTRIB_RESERVED)
                      (Z.land b USB_CONFIG_ATTRIB_SELF_POWERED))
               (Z.land b USB_CONFIG_ATTRIB_REMOTE_WAKEUP)) (Z.land b 0x1f)
  ∧ (Z.land b USB_CONFIG_ATTRIB_RESERVED ≠ 0 ↔ Z.testbit b 7 = true)
  ∧ (Z.land b USB_CONFIG_ATTRIB_SELF_POWERED ≠ 0 ↔ Z.testbit b 6 = true)
  ∧ (Z.land b USB_CONFIG_ATTRIB_REMOTE_WAKEUP ≠ 0 ↔ Z.testbit b 5 = true).
Proof.
  assert (H : config_attributes_ok b = true)
    by (apply byte_forall; [vm_compute; reflexivity | exact Hb]).
  unfold config_attributes_ok in H.
  repeat (apply andb_prop in H; destruct H as [H ?]).
  apply Z.eqb_eq in H.
  repeat match goal with
         | E : Bool.eqb _ _ = true |- _ => apply eqb_prop in E
         end.
  split; [exact H |].
  repeat split; intros Hx;
    match goal with
    | E : negb (Z.land b ?m =? 0) = Z.testbit b ?n |- context [Z.testbit b ?n] =>
        rewrite <- E; destruct (Z.eqb_spec (Z.land b m) 0); cbn; congruence
    | E : negb (Z.land b ?m =? 0) = Z.testbit b ?n |- Z.land b ?m ≠ 0 =>
        rewrite <- E in Hx; destruct (Z.eqb_spec (Z.land b m) 0);
        [discriminate Hx | assumption]
    end.
Qed.

Lemma X10_config_attributes_witness :
  Z.land 0xc0 USB_CONFIG_ATTRIB_SELF_POWERED ≠ 0
  ∧ ¬ Z.land 0x80 USB_CONFIG_ATTRIB_SELF_POWERED ≠ 0.
Proof.
  assert (Hc : 0 ≤ 0xc0 < 256) by lia.
  assert (H8 : 0 ≤ 0x80 < 256) by lia.
  destruct (X10_config_attributes 0xc0 Hc) as (_ & _ & Hs & _).
  destruct (X10_config_attributes 0x80 H8) as (_ & _ & Hs' & _).
  split; [apply Hs; reflexivity |]. intros H. apply Hs' in H. discriminate H.
Defined.

(** X11: each of the seven USB_LANG_* constants is a value of [int]
    (so its defining expression stays in range) made of a primary
    language, English 0x009 or German 0x007, in the low ten bits and a
    sublanguage from 1 to 5 above them; it reads back from the two bytes
    it takes in a language descriptor, and the seven are pairwise
    distinct. *)
Theorem X11_langid (id : Z) (Hid : id ∈ usb_langids) :
  0 ≤ id ≤ INT_MAX
  ∧ (Z.land id 0x3ff = 0x009 ∨ Z.land id 0x3ff = 0x007)
  ∧ 1 ≤ Z.shiftr id 10 ≤ 5
  ∧ id = Z.lor (Z.land id 0x3ff) (Z.shiftl (Z.shiftr id 10) 10)
  ∧ deserialise_units (to_bytes uint16_t id) = [id]
  ∧ (∀ id', id' ∈ usb_langids →
       Z.land id' 0x3ff = Z.land id 0x3ff → Z.shiftr id' 10 = Z.shiftr id 10 →
       id' = id)
  ∧ NoDup usb_langids.
Proof.
  assert (Hall : ∀ x, x ∈ usb_langids → langid_ok x = true).
  { intros x Hx. apply list_elem_of_In in Hx.
    revert x Hx. apply forallb_forall. vm_compute. reflexivity. }
  assert (Hdec : ∀ x, langid_ok x = true →
            0 ≤ x ≤ INT_MAX
            ∧ (Z.land x 0x3ff = 0x009 ∨ Z.land x 0x3ff = 0x007)
            ∧ 1 ≤ Z.shiftr x 10 ≤ 5
            ∧ x = Z.lor (Z.land x 0x3ff) (Z.shiftl (Z.shiftr x 10) 10)).
  { intros x H. unfold langid_ok in H.
    repeat (apply andb_prop in H; destruct H as [H ?]).
    repeat match goal with
           | E : (_ =? _) = true |- _ => apply Z.eqb_eq in E
           | E : (_ <=? _) = true |- _ => apply Z.leb_le in E
           | E : (_ || _) = true |- _ => apply orb_prop in E
           end.
    repeat split; try assumption.
    match goal with E : _ ∨ _ |- _ => destruct E as [E | E]; apply Z.eqb_eq in E end;
      [left | right]; assumption. }
  destruct (Hdec id (Hall id Hid)) as (Hr & Hp & Hs & He).
  split; [exact Hr |]. split; [exact Hp |]. split; [exact Hs |].
  split; [exact He |]. split; [| split].
  - cbn [to_bytes deserialise_units]. rewrite le16_to_bytes, Z.mod_small; [reflexivity |].
    unfold INT_MAX in Hr. lia.
  - intros id' Hid' Hp' Hs'.
    destruct (Hdec id' (Hall id' Hid')) as (_ & _ & _ & He').
    rewrite He', He, Hp', Hs'. reflexivity.
  - apply (bool_decide_unpack _). vm_compute. exact I.
Qed.

Lemma X11_langid_witness :
  Z.land USB_LANG_GERMAN_AT 0x3ff = 0x007 ∧ Z.shiftr USB_LANG_GERMAN_AT 10 = 3
  ∧ deserialise_units (to_bytes uint16_t USB_LANG_GERMAN_AT) = [USB_LANG_GERMAN_AT].
Proof.
  assert (Hid : USB_LANG_GERMAN_AT ∈ usb_langids)
    by (unfold usb_langids; rewrite !elem_of_cons; tauto).
  destruct (X11_langid USB_LANG_GERMAN_AT Hid) as (_ & _ & _ & _ & Hb & _).
  split; [reflexivity |]. split; [reflexivity | exact Hb].
Defined.
